(** * OSC Timecode Generator: timecode conversion and playback engine

    A shallow embedding of [OSC_TimeCode_Generator.py]: the two helper
    functions [frames_to_tc_string] and [tc_string_to_frames], the
    [FRAMERATES] table, and the parts of [OscTimecodeGeneratorApp] that own
    the frame counter ([parse_and_set_offset], [reset_timecode],
    [toggle_play_pause], [send_osc_message], [timecode_loop]).

    Conventions of the embedding.
    - A Python [int] is a [Z].
    - A Python [float] is modelled by the rational number it denotes, a [Q];
      the non-finite floats (nan, inf) are outside the model.  The entries of
      [FRAMERATES] are the exact values of the doubles written in the source.
      Arithmetic and comparison of floats are those of the rationals: the
      rounding of a float operation is not modelled.
    - A Python [str] is a [string]; a character is a code point below 256.
      In that range the decimal digits that [\d] and [int] accept are
      ['0'..'9'], and [str.strip] removes the code points listed in
      [is_space].
    - Code that can raise returns a [result]; the diagnostic [print]s of the
      source produce no event in the model. *)

From Stdlib Require Import ZArith QArith Qround Qabs String Ascii List Bool Lia.
Import ListNotations.

Local Open Scope string_scope.
Local Open Scope Z_scope.

(** ** Python primitives *)

Module Py.

Inductive exn : Type :=
| ZeroDivisionError
| ValueError.

Inductive result (A : Type) : Type :=
| Ok (a : A)
| Raise (e : exn).

Arguments Ok {A} a.
Arguments Raise {A} e.

Definition bind {A B : Type} (m : result A) (k : A -> result B) : result B :=
  match m with
  | Ok a => k a
  | Raise e => Raise e
  end.

(** [a // b] on ints. *)
Definition floordiv (a b : Z) : result Z :=
  if b =? 0 then Raise ZeroDivisionError else Ok (a / b).

(** [a % b] on ints. *)
Definition modulo (a b : Z) : result Z :=
  if b =? 0 then Raise ZeroDivisionError else Ok (a mod b).

(** [round(x)] for a float [x]: the nearest integer, a tie going to the
    even neighbour. *)
Definition round (x : Q) : Z :=
  let f := Qfloor x in
  match Qcompare (x - inject_Z f) (1 # 2) with
  | Lt => f
  | Gt => f + 1
  | Eq => if Z.even f then f else f + 1
  end.

(** [round(n)] for an int [n] is [n]. *)
Definition round_int (n : Z) : Z := n.

(** [a / b] on floats. *)
Definition truediv (a b : Q) : result Q :=
  if Qeq_bool b 0 then Raise ZeroDivisionError else Ok (a / b)%Q.

(** [c.isspace()] for a code point below 256. *)
Definition is_space (c : ascii) : bool :=
  let n := nat_of_ascii c in
  ((9 <=? n) && (n <=? 13) || (28 <=? n) && (n <=? 32)
   || (n =? 133) || (n =? 160))%nat.

(** What [\d] matches, for a code point below 256. *)
Definition is_digit (c : ascii) : bool :=
  let n := nat_of_ascii c in ((48 <=? n) && (n <=? 57))%nat.

Definition digit_val (c : ascii) : Z := Z.of_nat (nat_of_ascii c) - 48.

Definition digit_char (d : Z) : ascii := ascii_of_nat (Z.to_nat (48 + d)).

Fixpoint lstrip (s : string) : string :=
  match s with
  | String c r => if is_space c then lstrip r else s
  | EmptyString => EmptyString
  end.

Fixpoint rstrip (s : string) : string :=
  match s with
  | String c r =>
      match rstrip r with
      | EmptyString => if is_space c then EmptyString else String c EmptyString
      | r' => String c r'
      end
  | EmptyString => EmptyString
  end.

(** [s.strip()]. *)
Definition strip (s : string) : string := rstrip (lstrip s).

Fixpoint int_digits (s : string) (acc : Z) : option Z :=
  match s with
  | String c r =>
      if is_digit c then int_digits r (acc * 10 + digit_val c) else None
  | EmptyString => Some acc
  end.

(** [int(s)] for a string of decimal digits; [None] stands for the
    [ValueError] raised on the empty string and on a character that is not
    a digit.  (Signs, underscores and surrounding blanks, which [int] also
    reads, never reach it from a [\d{1,2}] group.) *)
Definition int (s : string) : option Z :=
  match s with
  | EmptyString => None
  | _ => int_digits s 0
  end.

(** Decimal digits of [n >= 0], most significant first, in front of [acc]. *)
Fixpoint dec_digits (fuel : nat) (n : Z) (acc : string) : string :=
  let acc' := String (digit_char (n mod 10)) acc in
  match fuel with
  | O => acc'
  | S k => if n / 10 =? 0 then acc' else dec_digits k (n / 10) acc'
  end.

(** [str(n)] for [n >= 0]; a number below [2 ^ (fuel + 1)] has at most
    [fuel + 1] digits. *)
Definition str_nat (n : Z) : string :=
  dec_digits (Z.to_nat (Z.log2 n)) n EmptyString.

(** [format(n, "02d")]: decimal, sign-aware zero fill to width two. *)
Definition format_02d (n : Z) : string :=
  match n with
  | Zneg p => String "-" (str_nat (Zpos p))
  | _ =>
      let s := str_nat n in
      if (String.length s <? 2)%nat then String "0" s else s
  end.

(** The two integer divisions again, refusing every divisor that is not
    positive; used only to state that a caller never passes one. *)
Definition floordiv_pos (a b : Z) : result Z :=
  if b <=? 0 then Raise ZeroDivisionError else Ok (a / b).

Definition modulo_pos (a b : Z) : result Z :=
  if b <=? 0 then Raise ZeroDivisionError else Ok (a mod b).

End Py.

Import Py.

Notation "x <- m ;; k" := (Py.bind m (fun x => k))
  (at level 61, m at next level, right associativity).

(** ** Constants *)

(** The doubles of the source, as the rationals they denote:
    [29.97002997002997] is [0x1.df853e2556b28p+4] and
    [23.976023976023976] is [0x1.7f9dcb5112287p+4]. *)
Definition FRAMERATES : list (string * Q) :=
  [ ("30", 30 # 1);
    ("29.97", 1054476685978981 # 35184372088832);
    ("25", 25 # 1);
    ("24", 24 # 1);
    ("23.976", 6748650790265479 # 281474976710656) ]%Q.

(** [FRAMERATES.get(label)]. *)
Fixpoint FRAMERATES_get_in (tbl : list (string * Q)) (label : string) : option Q :=
  match tbl with
  | (k, v) :: rest => if String.eqb k label then Some v else FRAMERATES_get_in rest label
  | [] => None
  end.

Definition FRAMERATES_get (label : string) : option Q :=
  FRAMERATES_get_in FRAMERATES label.

Definition DEFAULT_FPS_LABEL : string := "30".
Definition DEFAULT_FPS_VALUE : Q := 30 # 1.
Definition DEFAULT_OSC_ADDRESS : string := "/timecode".

(** ** Helper functions *)

(** The body of [frames_to_tc_string], over the two integer operations it
    calls, so that the divisors it hands them can be observed. *)
Section FramesToTc.
Variables (int_floordiv int_mod : Z -> Z -> result Z).

Definition frames_to_tc_string_with (total_frames : Z) (fps : Q) : result string :=
  let display_fps := Py.round fps in
  if display_fps <=? 0 then Ok "00:00:00:00"
  else
    let total_frames := Z.max 0 total_frames in
    frame_number <- int_mod total_frames display_fps ;;
    total_seconds <- int_floordiv total_frames display_fps ;;
    seconds <- int_mod total_seconds 60 ;;
    total_minutes <- int_floordiv total_seconds 60 ;;
    minutes <- int_mod total_minutes 60 ;;
    hours <- int_floordiv total_minutes 60 ;;
    Ok (format_02d hours ++ ":" ++ format_02d minutes ++ ":"
        ++ format_02d seconds ++ ":" ++ format_02d frame_number).
End FramesToTc.

Definition frames_to_tc_string : Z -> Q -> result string :=
  frames_to_tc_string_with Py.floordiv Py.modulo.

(** The pattern [(\d{1,2}):(\d{1,2}):(\d{1,2})[:;.](\d{1,2})] as [re.match]
    runs it: anchored at the start of the string only, each group greedy
    (two digits first) and falling back to one digit when the rest of the
    pattern fails after two. *)
Section Regex.
Context {A : Type}.

Definition re_digits12 (s : string) (k : string -> string -> option A) : option A :=
  match s with
  | String c1 rest1 =>
      if is_digit c1 then
        match rest1 with
        | String c2 rest2 =>
            if is_digit c2 then
              match k (String c1 (String c2 EmptyString)) rest2 with
              | Some r => Some r
              | None => k (String c1 EmptyString) rest1
              end
            else k (String c1 EmptyString) rest1
        | EmptyString => k (String c1 EmptyString) rest1
        end
      else None
  | EmptyString => None
  end.

Definition re_char (p : ascii -> bool) (s : string) (k : string -> option A) : option A :=
  match s with
  | String c r => if p c then k r else None
  | EmptyString => None
  end.
End Regex.

Definition is_colon (c : ascii) : bool := Ascii.eqb c ":".

(** The class [[:;.]]. *)
Definition is_last_sep (c : ascii) : bool :=
  Ascii.eqb c ":" || Ascii.eqb c ";" || Ascii.eqb c ".".

(** The four groups of a match, or [None] when [re.match] returns [None]. *)
Definition re_match_tc (s : string) : option (string * string * string * string) :=
  re_digits12 s (fun g1 r1 =>
  re_char is_colon r1 (fun r1' =>
  re_digits12 r1' (fun g2 r2 =>
  re_char is_colon r2 (fun r2' =>
  re_digits12 r2' (fun g3 r3 =>
  re_char is_last_sep r3 (fun r3' =>
  re_digits12 r3' (fun g4 _ => Some (g1, g2, g3, g4)))))))).

Definition tc_string_to_frames (tc_string : string) (fps : Q) : option Z :=
  let display_fps := Py.round fps in
  if display_fps <=? 0 then None
  else
    match re_match_tc (strip tc_string) with
    | None => None
    | Some (g1, g2, g3, g4) =>
        match Py.int g1, Py.int g2, Py.int g3, Py.int g4 with
        | Some h, Some m, Some s, Some f =>
            if (f >=? display_fps) || (m >=? 60) || (s >=? 60)
               || (h <? 0) || (m <? 0) || (s <? 0) || (f <? 0)
            then None
            else
              let total_seconds := h * 3600 + m * 60 + s in
              let total_frames := total_seconds * display_fps + f in
              Some total_frames
        | _, _, _, _ => None
        end
    end.


(** ** The application object

    The fields of [OscTimecodeGeneratorApp] that the engine reads and writes,
    after [setup_gui] has created the widgets.  [osc_client] and
    [timecode_thread] record whether the attribute holds an object; the
    effects on the user interface and on the OSC transport are appended to
    [effects], oldest first. *)

Inductive status : Type :=
| StPaused
| StPlayingSpeed0
| StPlaying (speed : Q)
| StResetTo (offset_str : string)
| StOscNotReady
| StInvalidAddress (address : string)
| StSendError.

Inductive event : Type :=
| EvShowError (title : string)
| EvStatus (msg : status)
| EvDisplay (tc_string : string)
| EvOscSend (address tc_string : string)
| EvButton (text : string)
| EvSpeedLabel (speed : Q).

Record app : Type := mkApp {
  osc_client : bool;
  is_running : bool;
  timecode_thread : bool;
  start_frame : Z;
  current_frame : Z;
  fps : Q;
  display_fps_label : string;
  osc_address_var : string;
  speed_var : Q;
  offset_var : string;
  effects : list event
}.

Definition emit (evs : list event) (a : app) : app :=
  mkApp (osc_client a) (is_running a) (timecode_thread a) (start_frame a)
        (current_frame a) (fps a) (display_fps_label a) (osc_address_var a)
        (speed_var a) (offset_var a) (effects a ++ evs)%list.

Definition set_is_running (b : bool) (a : app) : app :=
  mkApp (osc_client a) b (timecode_thread a) (start_frame a)
        (current_frame a) (fps a) (display_fps_label a) (osc_address_var a)
        (speed_var a) (offset_var a) (effects a).

Definition set_timecode_thread (b : bool) (a : app) : app :=
  mkApp (osc_client a) (is_running a) b (start_frame a)
        (current_frame a) (fps a) (display_fps_label a) (osc_address_var a)
        (speed_var a) (offset_var a) (effects a).

Definition set_start_frame (n : Z) (a : app) : app :=
  mkApp (osc_client a) (is_running a) (timecode_thread a) n
        (current_frame a) (fps a) (display_fps_label a) (osc_address_var a)
        (speed_var a) (offset_var a) (effects a).

Definition set_current_frame (n : Z) (a : app) : app :=
  mkApp (osc_client a) (is_running a) (timecode_thread a) (start_frame a)
        n (fps a) (display_fps_label a) (osc_address_var a)
        (speed_var a) (offset_var a) (effects a).

Definition set_offset_var (s : string) (a : app) : app :=
  mkApp (osc_client a) (is_running a) (timecode_thread a) (start_frame a)
        (current_frame a) (fps a) (display_fps_label a) (osc_address_var a)
        (speed_var a) s (effects a).

(** [address.startswith('/')]. *)
Definition startswith_slash (address : string) : bool :=
  match address with
  | String c _ => Ascii.eqb c "/"
  | EmptyString => false
  end.

(** [not address or not address.startswith('/')]. *)
Definition address_invalid (address : string) : bool :=
  match address with
  | EmptyString => true
  | _ => negb (startswith_slash address)
  end.

(** The effects of [send_osc_message], given what it reads from the object.
    [send_ok] tells whether [osc_client.send_message] returns or raises; the
    exception is caught and reported. *)
Definition send_osc_effects (client running : bool) (address : string)
    (send_ok : bool) (tc_string : string) : list event :=
  if negb client then
    if running then [EvStatus StOscNotReady] else []
  else if address_invalid address then [EvStatus (StInvalidAddress address)]
  else if send_ok then [EvOscSend address tc_string]
  else [EvStatus StSendError].

Definition send_osc_message (send_ok : bool) (tc_string : string) (a : app) : app :=
  emit (send_osc_effects (osc_client a) (is_running a) (osc_address_var a)
          send_ok tc_string) a.

(** [abs(current_speed) < 0.1]. *)
Definition speed_is_zero (current_speed : Q) : bool :=
  match Qcompare (Qabs current_speed) (1 # 10) with
  | Lt => true
  | _ => false
  end.

Definition update_speed_label (a : app) : app :=
  let current_speed := speed_var a in
  let a := emit [EvSpeedLabel current_speed] a in
  if is_running a then
    if speed_is_zero current_speed then emit [EvStatus StPlayingSpeed0] a
    else emit [EvStatus (StPlaying current_speed)] a
  else a.

Definition parse_and_set_offset (a : app) : app :=
  let offset_str := offset_var a in
  let calculated_frames := tc_string_to_frames offset_str (fps a) in
  match calculated_frames with
  | None =>
      let a := emit [EvShowError "Invalid Offset"] a in
      let a := set_start_frame 0 a in
      set_offset_var "00:00:00:00" a
  | Some n => set_start_frame n a
  end.

(** The loop itself runs in another thread (see [timecode_loop_iter] below);
    here starting it only records that the object holds a thread, and the
    bounded [join] of the pause branch leaves no trace but a [print]. *)
Definition toggle_play_pause (a : app) : app :=
  if is_running a then
    let a := set_is_running false a in
    let a := emit [EvButton "Play"] a in
    let a := set_timecode_thread false a in
    emit [EvStatus StPaused] a
  else
    if negb (osc_client a) then emit [EvShowError "Error"] a
    else if address_invalid (osc_address_var a) then emit [EvShowError "Error"] a
    else
      let a := set_is_running true a in
      let a := emit [EvButton "Pause"] a in
      let a := set_timecode_thread true a in
      update_speed_label a.

Definition reset_timecode (send_ok : bool) (a : app) : result app :=
  let a := if is_running a then toggle_play_pause a else a in
  let a := parse_and_set_offset a in
  let a := set_current_frame (start_frame a) a in
  tc_string <- frames_to_tc_string (current_frame a) (fps a) ;;
  let a := emit [EvDisplay tc_string] a in
  let a := if osc_client a then send_osc_message send_ok tc_string a else a in
  let offset_str := offset_var a in
  Ok (emit [EvStatus (StResetTo offset_str)] a).

(** ** The tick loop

    [timecode_loop] runs in a thread of its own.  What one iteration reads
    from the object shared with the control thread, and from the clock, is
    given by a [tick_env]; what the loop itself owns is a [loop_state]:
    the frame counter, [last_time], the effects it has produced and the
    durations it has slept.  Times, speed and rate are rationals: a float
    product or quotient that underflows to 0.0 (a speed or a rate next to
    the smallest positive float), and the rounding of each addition to
    [last_time], are not followed by the model. *)

Record tick_env : Type := mkEnv {
  env_is_running : bool;        (* [self.is_running] at the [while] test *)
  env_speed_var : Q;            (* [self.speed_var.get()] *)
  env_fps : Q;                  (* [self.fps] *)
  env_osc_client : bool;        (* [self.osc_client] is set *)
  env_osc_address_var : string; (* [self.osc_address_var.get()] *)
  env_send_ok : bool;           (* [send_message] returns *)
  env_perf_counter : Q;         (* [time.perf_counter()] in this iteration *)
  env_is_running_after : bool   (* [self.is_running] after the sleep *)
}.

Record loop_state : Type := mkLoop {
  loop_current_frame : Z;
  last_time : Q;
  loop_effects : list event;
  slept : list Q
}.

(** One pass through the body of the [while]: the new state, and whether the
    pass reached the end of the body ([true]) or left through [continue]. *)
Definition timecode_loop_iter (e : tick_env) (st : loop_state)
  : result (loop_state * bool) :=
  let current_speed_percent := env_speed_var e in
  let base_fps := env_fps e in
  current_speed_multiplier <- Py.truediv current_speed_percent (100 # 1) ;;
  if Qle_bool current_speed_multiplier 0 || Qle_bool base_fps 0 then
    Ok (mkLoop (loop_current_frame st) (env_perf_counter e)
               (loop_effects st) (slept st ++ [1 # 20])%list, false)
  else
    let effective_fps := (base_fps * current_speed_multiplier)%Q in
    frame_duration <- Py.truediv 1 effective_fps ;;
    tc_string <- frames_to_tc_string (Py.round_int (loop_current_frame st)) base_fps ;;
    let evs :=
      EvDisplay tc_string
      :: send_osc_effects (env_osc_client e) (env_is_running e)
           (env_osc_address_var e) (env_send_ok e) tc_string in
    let current_frame := loop_current_frame st + 1 in
    let next_frame_time := (last_time st + frame_duration)%Q in
    let current_time := env_perf_counter e in
    let sleep_time := (next_frame_time - current_time)%Q in
    let slept' :=
      if Qle_bool sleep_time 0 then slept st else (slept st ++ [sleep_time])%list in
    Ok (mkLoop current_frame next_frame_time (loop_effects st ++ evs)%list slept', true).

(** The [while] loop over the successive snapshots; it stops at the first
    snapshot whose running flag is down, or when the snapshots are used up. *)
Fixpoint timecode_loop_run (envs : list tick_env) (st : loop_state)
  : result loop_state :=
  match envs with
  | [] => Ok st
  | e :: rest =>
      if env_is_running e then
        r <- timecode_loop_iter e st ;;
        let (st', ticked) := (r : loop_state * bool) in
        if ticked && negb (env_is_running_after e) then Ok st'
        else timecode_loop_run rest st'
      else Ok st
  end.

Definition timecode_loop (initial_frame : Z) (t0 : Q) (envs : list tick_env)
  : result loop_state :=
  timecode_loop_run envs (mkLoop initial_frame t0 [] []).

(** ** Framerate selection

    [on_fps_selected] announces the new rate on the status bar with a
    message that [status] does not list, so the effects of one call are
    returned beside the new object, in the order they happen: those that
    also reach [effects] (the stop, the reset, the error dialog) wrapped in
    [FpsBase], and the status message of the handler itself. *)

Inductive fps_event : Type :=
| FpsBase (e : event)
| FpsStatusSet (label : string).

Definition set_fps (v : Q) (a : app) : app :=
  mkApp (osc_client a) (is_running a) (timecode_thread a) (start_frame a)
        (current_frame a) v (display_fps_label a) (osc_address_var a)
        (speed_var a) (offset_var a) (effects a).

Definition set_display_fps_label (s : string) (a : app) : app :=
  mkApp (osc_client a) (is_running a) (timecode_thread a) (start_frame a)
        (current_frame a) (fps a) s (osc_address_var a)
        (speed_var a) (offset_var a) (effects a).

(** What a call appended to [effects]. *)
Definition new_effects (before after : app) : list event :=
  skipn (List.length (effects before)) (effects after).

(** [selected_label] is [self.fps_var.get()]; the test [if new_fps_value:]
    fails on [None] and on a rate equal to zero. *)
Definition on_fps_selected (selected_label : string) (send_ok : bool) (a : app)
  : result (app * list fps_event) :=
  let rejected :=
    Ok (emit [EvShowError "Error"] a, [FpsBase (EvShowError "Error")]) in
  match FRAMERATES_get selected_label with
  | Some new_fps_value =>
      if Qeq_bool new_fps_value 0 then rejected
      else
        let was_running := is_running a in
        let a1 := if was_running then toggle_play_pause a else a in
        let a2 := set_display_fps_label selected_label a1 in
        let a2 := set_fps new_fps_value a2 in
        a3 <- reset_timecode send_ok a2 ;;
        Ok (a3, (map FpsBase (new_effects a a1) ++ [FpsStatusSet selected_label]
                 ++ map FpsBase (new_effects a2 a3))%list)
  | None => rejected
  end.

(** ** Predicates of the statements *)

(** Every character of [s] is a decimal digit. *)
Fixpoint all_digits (s : string) : bool :=
  match s with
  | String c r => is_digit c && all_digits r
  | EmptyString => true
  end.

(** A group of the pattern: one or two decimal digits. *)
Definition field12 (x : string) : bool :=
  match x with
  | String c1 EmptyString => is_digit c1
  | String c1 (String c2 EmptyString) => is_digit c1 && is_digit c2
  | _ => false
  end.

Definition starts_with_digit (s : string) : bool :=
  match s with
  | String c _ => is_digit c
  | EmptyString => false
  end.

(** The last character of [s] exists and is not blank. *)
Fixpoint ends_nonspace (s : string) : bool :=
  match s with
  | EmptyString => false
  | String c EmptyString => negb (is_space c)
  | String _ r => ends_nonspace r
  end.

(** The snapshot makes the loop take its pause branch. *)
Definition paused_env (e : tick_env) : Prop :=
  (env_speed_var e <= 0)%Q \/ (env_fps e <= 0)%Q.

(** Every character of [s] is one that [strip] removes. *)
Fixpoint all_space (s : string) : bool :=
  match s with
  | String c r => is_space c && all_space r
  | EmptyString => true
  end.

(** The test of the pause branch, as the loop computes it. *)
Definition tick_guard (e : tick_env) : bool :=
  Qle_bool (env_speed_var e / (100 # 1)) 0 || Qle_bool (env_fps e) 0.

(** The strings shown on the timecode label, oldest first. *)
Fixpoint displays (evs : list event) : list string :=
  match evs with
  | EvDisplay tc :: rest => tc :: displays rest
  | _ :: rest => displays rest
  | [] => []
  end.

(** An OSC message goes to an address that starts with a slash. *)
Definition osc_event_ok (ev : event) : bool :=
  match ev with
  | EvOscSend address _ => startswith_slash address
  | _ => true
  end.

(** The snapshot finds the running flag up at both tests. *)
Definition stays_running (e : tick_env) : bool :=
  env_is_running e && env_is_running_after e.

(** The frame duration of a snapshot. *)
Definition frame_duration_of (e : tick_env) : Q :=
  (1 / (env_fps e * (env_speed_var e / (100 # 1))))%Q.

(** The snapshots on which the loop goes through a tick. *)
Definition ticking (envs : list tick_env) : list tick_env :=
  filter (fun e => negb (tick_guard e)) envs.




(** * Properties *)

(** ** Digits and decimal numerals *)

Lemma digit_cases (d : Z) :
  0 <= d < 10 ->
  d = 0 \/ d = 1 \/ d = 2 \/ d = 3 \/ d = 4 \/ d = 5 \/ d = 6 \/ d = 7
  \/ d = 8 \/ d = 9.
Proof. lia. Qed.

Ltac each_digit d H :=
  destruct (digit_cases d H) as
    [->|[->|[->|[->|[->|[->|[->|[->|[->| ->]]]]]]]]].

Lemma is_digit_digit_char (d : Z) :
  0 <= d < 10 -> is_digit (digit_char d) = true.
Proof. intros H. each_digit d H; reflexivity. Qed.

Lemma digit_val_digit_char (d : Z) :
  0 <= d < 10 -> digit_val (digit_char d) = d.
Proof. intros H. each_digit d H; reflexivity. Qed.

Lemma is_space_digit_char (d : Z) :
  0 <= d < 10 -> is_space (digit_char d) = false.
Proof. intros H. each_digit d H; reflexivity. Qed.

Lemma digit_val_range (c : ascii) : is_digit c = true -> 0 <= digit_val c < 10.
Proof.
  unfold is_digit, digit_val. intros H.
  apply andb_true_iff in H. destruct H as [H1 H2].
  apply Nat.leb_le in H1. apply Nat.leb_le in H2. lia.
Qed.

Lemma int_digits_app (s t : string) (a : Z) :
  int_digits (s ++ t) a =
  match int_digits s a with
  | Some v => int_digits t v
  | None => None
  end.
Proof.
  revert a. induction s as [|c s IH]; intros a; simpl; [reflexivity|].
  destruct (is_digit c); [apply IH|reflexivity].
Qed.

Lemma string_app_assoc (s t u : string) : (s ++ t) ++ u = s ++ (t ++ u).
Proof. induction s as [|c s IH]; simpl; [reflexivity|]. now rewrite IH. Qed.

Lemma dec_digits_acc (fuel : nat) (n : Z) (acc : string) :
  dec_digits fuel n acc = dec_digits fuel n EmptyString ++ acc.
Proof.
  revert n acc. induction fuel as [|k IH]; intros n acc; simpl; [reflexivity|].
  destruct (n / 10 =? 0); [reflexivity|].
  rewrite IH. rewrite (IH _ (String _ EmptyString)).
  rewrite string_app_assoc. reflexivity.
Qed.

Lemma dec_digits_nonempty (fuel : nat) (n : Z) (acc : string) :
  dec_digits fuel n acc <> EmptyString.
Proof.
  revert n acc. induction fuel as [|k IH]; intros n acc; simpl; [discriminate|].
  destruct (n / 10 =? 0); [discriminate|apply IH].
Qed.

Lemma dec_digits_all_digits (fuel : nat) (n : Z) (acc : string) :
  0 <= n -> all_digits acc = true -> all_digits (dec_digits fuel n acc) = true.
Proof.
  revert n acc. induction fuel as [|k IH]; intros n acc Hn Hacc; simpl.
  - rewrite is_digit_digit_char, Hacc by (apply Z.mod_pos_bound; lia). reflexivity.
  - assert (Hd : all_digits (String (digit_char (n mod 10)) acc) = true).
    { simpl. rewrite is_digit_digit_char, Hacc by (apply Z.mod_pos_bound; lia). reflexivity. }
    destruct (n / 10 =? 0); [exact Hd|].
    apply IH; [apply Z.div_pos; lia|exact Hd].
Qed.

Lemma int_digits_dec_digits (fuel : nat) (n : Z) :
  0 <= n < 2 ^ (Z.of_nat fuel + 1) ->
  int_digits (dec_digits fuel n EmptyString) 0 = Some n.
Proof.
  revert n. induction fuel as [|k IH]; intros n Hn.
  - simpl in *. assert (Hm : n mod 10 = n) by (apply Z.mod_small; lia).
    rewrite Hm, is_digit_digit_char, digit_val_digit_char by lia. reflexivity.
  - cbn [dec_digits]. destruct (Z.eqb_spec (n / 10) 0) as [Hq|Hq].
    + cbn [int_digits].
      assert (Hm : n mod 10 = n).
      { pose proof (Z.div_mod n 10 ltac:(lia)). lia. }
      rewrite Hm.
      assert (n < 10) by (pose proof (Z.mod_pos_bound n 10 ltac:(lia)); lia).
      rewrite is_digit_digit_char, digit_val_digit_char by lia. reflexivity.
    + rewrite dec_digits_acc, int_digits_app.
      rewrite IH.
      * cbn [int_digits].
        rewrite is_digit_digit_char, digit_val_digit_char
          by (apply Z.mod_pos_bound; lia).
        f_equal. pose proof (Z.div_mod n 10 ltac:(lia)). lia.
      * split; [apply Z.div_pos; lia|].
        replace (Z.of_nat (S k) + 1) with (Z.succ (Z.of_nat k + 1)) in Hn by lia.
        rewrite Z.pow_succ_r in Hn by lia.
        apply Z.div_lt_upper_bound; lia.
Qed.

Lemma str_nat_fuel (n : Z) :
  0 <= n -> n < 2 ^ (Z.of_nat (Z.to_nat (Z.log2 n)) + 1).
Proof.
  intros Hn. rewrite Z2Nat.id by apply Z.log2_nonneg.
  destruct (Z.eq_dec n 0) as [->|Hz]; [reflexivity|].
  pose proof (Z.log2_spec n ltac:(lia)) as Hs.
  replace (Z.log2 n + 1) with (Z.succ (Z.log2 n)) by lia. lia.
Qed.

Lemma int_str_nat (n : Z) : 0 <= n -> Py.int (str_nat n) = Some n.
Proof.
  intros Hn. unfold Py.int, str_nat.
  pose proof (dec_digits_nonempty (Z.to_nat (Z.log2 n)) n EmptyString) as Hne.
  destruct (dec_digits (Z.to_nat (Z.log2 n)) n EmptyString) eqn:E; [congruence|].
  rewrite <- E. apply int_digits_dec_digits.
  split; [lia|apply str_nat_fuel; lia].
Qed.

Lemma int_zero_prefix (s : string) :
  s <> EmptyString -> Py.int (String "0" s) = Py.int s.
Proof. destruct s; [congruence|reflexivity]. Qed.

(** [int] reads back what [format_02d] writes. *)
Lemma int_format_02d (n : Z) : 0 <= n -> Py.int (format_02d n) = Some n.
Proof.
  intros Hn. unfold format_02d.
  destruct n as [|p|p]; try lia.
  - reflexivity.
  - destruct (String.length (str_nat (Z.pos p)) <? 2)%nat.
    + rewrite int_zero_prefix; [apply int_str_nat; lia|apply dec_digits_nonempty].
    + apply int_str_nat; lia.
Qed.

Lemma all_digits_format_02d (n : Z) : 0 <= n -> all_digits (format_02d n) = true.
Proof.
  intros Hn. unfold format_02d.
  assert (H : all_digits (str_nat n) = true)
    by (apply dec_digits_all_digits; [lia|reflexivity]).
  destruct n as [|p|p]; try lia.
  - reflexivity.
  - destruct (String.length (str_nat (Z.pos p)) <? 2)%nat; [simpl; exact H|exact H].
Qed.

(** Below one hundred the field is exactly the tens digit and the units
    digit. *)
Lemma format_02d_two_digits (n : Z) :
  0 <= n < 100 ->
  format_02d n = String (digit_char (n / 10)) (String (digit_char (n mod 10)) EmptyString).
Proof.
  intros Hn.
  assert (Hk : exists k : nat, n = Z.of_nat k /\ (k < 100)%nat)
    by (exists (Z.to_nat n); lia).
  destruct Hk as (k & -> & Hk). clear Hn.
  do 100 (destruct k as [|k]; [reflexivity|]). lia.
Qed.

Lemma string_length_app (s t : string) :
  String.length (s ++ t) = (String.length s + String.length t)%nat.
Proof. induction s as [|c s IH]; simpl; [reflexivity|]. now rewrite IH. Qed.

Lemma format_02d_length (n : Z) : 0 <= n -> (2 <= String.length (format_02d n))%nat.
Proof.
  intros Hn. unfold format_02d. destruct n as [|p|p]; try lia.
  - simpl. lia.
  - destruct (Nat.ltb_spec (String.length (str_nat (Z.pos p))) 2) as [Hl|Hl]; [|exact Hl].
    pose proof (dec_digits_nonempty (Z.to_nat (Z.log2 (Z.pos p))) (Z.pos p) EmptyString) as Hne.
    unfold str_nat in *.
    destruct (dec_digits (Z.to_nat (Z.log2 (Z.pos p))) (Z.pos p) EmptyString);
      [congruence|simpl; lia].
Qed.

(** Every rate of the table has a display rate of two digits. *)
Lemma FRAMERATES_display_range (label : string) (fps : Q) :
  In (label, fps) FRAMERATES -> 1 <= Py.round fps <= 100.
Proof.
  intros Hin. cbn in Hin.
  repeat (destruct Hin as [Hin|Hin];
          [injection Hin as <- <-; vm_compute; split; discriminate|]).
  contradiction.
Qed.

(** ** The formatter *)

(** With a display rate of at least one, the body runs to the end and the
    four integer operations are the mathematical quotient and remainder. *)
Lemma frames_to_tc_string_fields (frames : Z) (fps : Q) :
  1 <= Py.round fps ->
  let d := Py.round fps in
  let n := Z.max 0 frames in
  frames_to_tc_string frames fps =
  Ok (format_02d (n / d / 60 / 60) ++ ":" ++ format_02d ((n / d / 60) mod 60) ++ ":"
      ++ format_02d ((n / d) mod 60) ++ ":" ++ format_02d (n mod d)).
Proof.
  intros Hd d n. unfold frames_to_tc_string, frames_to_tc_string_with.
  fold d. fold n.
  destruct (Z.leb_spec d 0) as [H0|H0]; [lia|].
  unfold Py.modulo, Py.floordiv.
  destruct (Z.eqb_spec d 0) as [Hz|Hz]; [lia|].
  reflexivity.
Qed.

Lemma frames_to_tc_string_pos_fields (frames : Z) (fps : Q) :
  1 <= Py.round fps ->
  frames_to_tc_string_with Py.floordiv_pos Py.modulo_pos frames fps =
  frames_to_tc_string frames fps.
Proof.
  intros Hd. unfold frames_to_tc_string, frames_to_tc_string_with.
  destruct (Z.leb_spec (Py.round fps) 0) as [H0|H0]; [lia|].
  unfold Py.modulo, Py.floordiv, Py.modulo_pos, Py.floordiv_pos.
  destruct (Z.leb_spec (Py.round fps) 0) as [H1|H1]; [lia|].
  destruct (Z.eqb_spec (Py.round fps) 0) as [Hz|Hz]; [lia|].
  reflexivity.
Qed.

Lemma frames_to_tc_string_low_rate (frames : Z) (fps : Q) :
  Py.round fps <= 0 ->
  frames_to_tc_string frames fps = Ok "00:00:00:00"
  /\ frames_to_tc_string_with Py.floordiv_pos Py.modulo_pos frames fps = Ok "00:00:00:00".
Proof.
  intros Hd. unfold frames_to_tc_string, frames_to_tc_string_with.
  destruct (Z.leb_spec (Py.round fps) 0) as [H0|H0]; [split; reflexivity|lia].
Qed.

Lemma frames_to_tc_string_total (frames : Z) (fps : Q) :
  exists s, frames_to_tc_string frames fps = Ok s.
Proof.
  destruct (Z.le_gt_cases (Py.round fps) 0) as [Hd|Hd].
  - eexists. apply frames_to_tc_string_low_rate, Hd.
  - eexists. apply frames_to_tc_string_fields. lia.
Qed.

Lemma frames_to_tc_string_clamp (frames : Z) (fps : Q) :
  frames_to_tc_string frames fps = frames_to_tc_string (Z.max 0 frames) fps.
Proof.
  unfold frames_to_tc_string, frames_to_tc_string_with.
  rewrite (Z.max_r 0 (Z.max 0 frames)) by lia. reflexivity.
Qed.

(** C2: for [frames >= 0] and a display rate [d >= 1] the result is the four
    fields [hours = frames div d div 60 div 60], [minutes], [seconds] and
    [frame = frames mod d] of the spec, each written by [format_02d] and
    joined by colons; [format_02d] writes a value below one hundred as its
    tens and units digits and any value as a numeral of at least two digits
    that reads back as the value, so hours are not wrapped; the three
    examples of the spec at the rate labelled "30", and an hour field of 25
    and of 100. *)
Theorem frames_to_tc_string_spec (frames : Z) (fps : Q) :
  0 <= frames -> 1 <= Py.round fps ->
  let d := Py.round fps in
  let frame := frames mod d in
  let totalSeconds := frames / d in
  let seconds := totalSeconds mod 60 in
  let totalMinutes := totalSeconds / 60 in
  let minutes := totalMinutes mod 60 in
  let hours := totalMinutes / 60 in
  frames_to_tc_string frames fps =
    Ok (format_02d hours ++ ":" ++ format_02d minutes ++ ":"
        ++ format_02d seconds ++ ":" ++ format_02d frame)
  /\ (forall k, 0 <= k < 100 ->
        format_02d k =
        String (digit_char (k / 10)) (String (digit_char (k mod 10)) EmptyString))
  /\ (forall k, 0 <= k ->
        Py.int (format_02d k) = Some k /\ (2 <= String.length (format_02d k))%nat)
  /\ option_map (frames_to_tc_string 0) (FRAMERATES_get "30") = Some (Ok "00:00:00:00")
  /\ option_map (frames_to_tc_string 90) (FRAMERATES_get "30") = Some (Ok "00:00:03:00")
  /\ option_map (frames_to_tc_string 29) (FRAMERATES_get "30") = Some (Ok "00:00:00:29")
  /\ option_map (frames_to_tc_string (25 * 3600 * 30)) (FRAMERATES_get "30")
     = Some (Ok "25:00:00:00")
  /\ option_map (frames_to_tc_string (100 * 3600 * 30)) (FRAMERATES_get "30")
     = Some (Ok "100:00:00:00").
Proof.
  intros Hf Hd d frame totalSeconds seconds totalMinutes minutes hours.
  split.
  - rewrite frames_to_tc_string_fields by exact Hd.
    rewrite Z.max_r by exact Hf. reflexivity.
  - split; [exact format_02d_two_digits|].
    split; [intros k Hk; split; [apply int_format_02d|apply format_02d_length]; exact Hk|].
    repeat split; reflexivity.
Qed.

Lemma frames_to_tc_string_spec_witness :
  frames_to_tc_string 3723 (30 # 1) = Ok "00:02:04:03"
  /\ format_02d 7 = "07"
  /\ Py.int (format_02d 123) = Some 123.
Proof.
  destruct (frames_to_tc_string_spec 3723 (30 # 1)) as (E & Two & Any & _).
  - lia.
  - vm_compute. discriminate.
  - split; [exact E|]. split.
    + apply (Two 7). lia.
    + apply (Any 123). lia.
Defined.

(** C6: [frames_to_tc_string] always returns a string, and returns the same
    string when the two integer operations refuse every divisor that is not
    positive; when the rate rounds to zero or less the string is
    "00:00:00:00"; a negative frame count gives what a count of zero gives. *)
Theorem frames_to_tc_string_safe (frames : Z) (fps : Q) :
  (exists s,
     frames_to_tc_string frames fps = Ok s
     /\ frames_to_tc_string_with Py.floordiv_pos Py.modulo_pos frames fps = Ok s)
  /\ (Py.round fps <= 0 -> frames_to_tc_string frames fps = Ok "00:00:00:00")
  /\ (frames < 0 -> frames_to_tc_string frames fps = frames_to_tc_string 0 fps).
Proof.
  split; [|split].
  - destruct (Z.le_gt_cases (Py.round fps) 0) as [Hd|Hd].
    + exists "00:00:00:00". apply frames_to_tc_string_low_rate, Hd.
    + destruct (frames_to_tc_string_total frames fps) as [s Hs].
      exists s. split; [exact Hs|].
      rewrite frames_to_tc_string_pos_fields by lia. exact Hs.
  - intros Hd. apply frames_to_tc_string_low_rate, Hd.
  - intros Hn. rewrite frames_to_tc_string_clamp.
    rewrite Z.max_l by lia. reflexivity.
Qed.

Lemma frames_to_tc_string_safe_witness :
  frames_to_tc_string (-5) (1 # 4) = Ok "00:00:00:00"
  /\ frames_to_tc_string (-5) (30 # 1) = frames_to_tc_string 0 (30 # 1).
Proof.
  split.
  - refine (proj1 (proj2 (frames_to_tc_string_safe (-5) (1 # 4))) _).
    vm_compute. discriminate.
  - refine (proj2 (proj2 (frames_to_tc_string_safe (-5) (30 # 1))) _).
    lia.
Defined.

Lemma two_digits_length (n : Z) :
  0 <= n < 100 -> String.length (format_02d n) = 2%nat.
Proof. intros Hn. rewrite format_02d_two_digits by exact Hn. reflexivity. Qed.

(** C10: for [frames >= 0] and a display rate [d >= 1] the output is four
    numerals joined by colons; the minutes and the seconds numerals read as
    values in [0, 59] and have exactly two digits, the frames numeral reads
    as a value in [0, d-1] (and has exactly two digits when [d <= 100], as
    for every rate of [FRAMERATES]), and the hours numeral has at least two
    digits. *)
Theorem frames_to_tc_string_field_ranges (frames : Z) (fps : Q) :
  0 <= frames -> 1 <= Py.round fps ->
  exists (hh mm ss ff : string) (h m s f : Z),
    frames_to_tc_string frames fps = Ok (hh ++ ":" ++ mm ++ ":" ++ ss ++ ":" ++ ff)
    /\ (all_digits hh && all_digits mm && all_digits ss && all_digits ff = true)
    /\ Py.int hh = Some h /\ Py.int mm = Some m
    /\ Py.int ss = Some s /\ Py.int ff = Some f
    /\ 0 <= h /\ 0 <= m <= 59 /\ 0 <= s <= 59 /\ 0 <= f <= Py.round fps - 1
    /\ (2 <= String.length hh)%nat
    /\ String.length mm = 2%nat /\ String.length ss = 2%nat
    /\ (Py.round fps <= 100 -> String.length ff = 2%nat)
    /\ (forall label, In (label, fps) FRAMERATES -> String.length ff = 2%nat).
Proof.
  intros Hf Hd.
  pose proof (frames_to_tc_string_fields frames fps Hd) as E.
  cbv zeta in E. rewrite Z.max_r in E by exact Hf.
  set (d := Py.round fps) in *.
  assert (Ha : 0 <= frames / d) by (apply Z.div_pos; lia).
  assert (Hb : 0 <= frames / d / 60) by (apply Z.div_pos; lia).
  assert (Hh : 0 <= frames / d / 60 / 60) by (apply Z.div_pos; lia).
  pose proof (Z.mod_pos_bound (frames / d / 60) 60 ltac:(lia)) as Hm.
  pose proof (Z.mod_pos_bound (frames / d) 60 ltac:(lia)) as Hs.
  pose proof (Z.mod_pos_bound frames d ltac:(lia)) as Hfr.
  exists (format_02d (frames / d / 60 / 60)), (format_02d ((frames / d / 60) mod 60)),
    (format_02d ((frames / d) mod 60)), (format_02d (frames mod d)),
    (frames / d / 60 / 60), ((frames / d / 60) mod 60), ((frames / d) mod 60),
    (frames mod d).
  split; [exact E|].
  split; [rewrite !all_digits_format_02d by lia; reflexivity|].
  rewrite !int_format_02d by lia.
  repeat (split; [first [reflexivity|lia|apply format_02d_length; lia
                         |apply two_digits_length; lia]|]).
  split.
  - intros Hle. apply two_digits_length. lia.
  - intros label Hin. apply two_digits_length.
    pose proof (FRAMERATES_display_range label fps Hin). lia.
Qed.

Lemma frames_to_tc_string_field_ranges_witness :
  exists (hh mm ss ff : string) (h m s f : Z),
    frames_to_tc_string 2699999 (30 # 1) = Ok (hh ++ ":" ++ mm ++ ":" ++ ss ++ ":" ++ ff)
    /\ Py.int hh = Some h /\ Py.int mm = Some m
    /\ Py.int ss = Some s /\ Py.int ff = Some f
    /\ 0 <= h /\ 0 <= m <= 59 /\ 0 <= s <= 59 /\ 0 <= f <= 29
    /\ String.length mm = 2%nat /\ String.length ss = 2%nat
    /\ String.length ff = 2%nat.
Proof.
  destruct (frames_to_tc_string_field_ranges 2699999 (30 # 1))
    as (hh & mm & ss & ff & h & m & s & f & E & _ & Ih & Im & Is & If
        & Hh & Hm & Hs & Hf & _ & Lm & Ls & Lf & Ltab).
  - lia.
  - vm_compute. discriminate.
  - exists hh, mm, ss, ff, h, m, s, f.
    repeat (split; [assumption|]).
    apply (Ltab "30"). cbn. left. reflexivity.
Defined.

(** ** The parser *)

Ltac field_cases X HX :=
  destruct X as [|?c [|?c [|? ?]]]; cbn [field12] in HX; try discriminate HX;
  [|apply andb_true_iff in HX; destruct HX as [? ?]].

Ltac use_digits :=
  repeat match goal with
         | H : is_digit ?c = _ |- context [is_digit ?c] => rewrite H
         | H : is_last_sep ?c = _ |- context [is_last_sep ?c] => rewrite H
         end.

Lemma is_last_sep_cases (c : ascii) :
  is_last_sep c = true -> c = ":"%char \/ c = ";"%char \/ c = "."%char.
Proof.
  unfold is_last_sep. intros H.
  destruct (Ascii.eqb_spec c ":"); [now left|].
  destruct (Ascii.eqb_spec c ";"); [now right; left|].
  destruct (Ascii.eqb_spec c "."); [now right; right|discriminate].
Qed.

(** A string that begins with four groups, the first three followed by a
    colon and the third by a separator of the class, matches with these
    groups, provided the last group is as long as it can be. *)
Lemma re_match_tc_fields (H M S F : string) (sep : ascii) (rest : string) :
  field12 H = true -> field12 M = true -> field12 S = true -> field12 F = true ->
  is_last_sep sep = true ->
  String.length F = 2%nat \/ starts_with_digit rest = false ->
  re_match_tc (H ++ ":" ++ M ++ ":" ++ S ++ String sep (F ++ rest))
  = Some (H, M, S, F).
Proof.
  intros HH HM HS HF Hsep Hmax.
  destruct (is_last_sep_cases sep Hsep) as [->|[->| ->]]; clear Hsep;
  field_cases H HH; field_cases M HM; field_cases S HS; field_cases F HF;
    cbn [append]; unfold re_match_tc, re_digits12, re_char;
    use_digits; cbn; use_digits;
    try reflexivity;
    (destruct Hmax as [Hmax|Hmax]; [cbn in Hmax; discriminate Hmax|]);
    destruct rest as [|x r]; cbn in Hmax; use_digits; reflexivity.
Qed.

Lemma re_digits12_inv {A : Type} (s : string) (k : string -> string -> option A) (r : A) :
  re_digits12 s k = Some r ->
  exists g rest, s = g ++ rest /\ field12 g = true /\ k g rest = Some r.
Proof.
  unfold re_digits12. intros E.
  destruct s as [|c1 rest1]; [discriminate|].
  destruct (is_digit c1) eqn:D1; [|discriminate].
  assert (One : k (String c1 EmptyString) rest1 = Some r ->
                exists g rest, String c1 rest1 = g ++ rest /\ field12 g = true
                               /\ k g rest = Some r).
  { intros K. exists (String c1 EmptyString), rest1. cbn. rewrite D1. auto. }
  destruct rest1 as [|c2 rest2]; [exact (One E)|].
  destruct (is_digit c2) eqn:D2; [|exact (One E)].
  destruct (k (String c1 (String c2 EmptyString)) rest2) as [r'|] eqn:K2; [|exact (One E)].
  exists (String c1 (String c2 EmptyString)), rest2. cbn. rewrite D1, D2.
  split; [reflexivity|]. split; [reflexivity|]. congruence.
Qed.

Lemma re_digits12_last_inv {A : Type} (s : string) (f : string -> A) (r : A) :
  re_digits12 s (fun g _ => Some (f g)) = Some r ->
  exists g rest, s = g ++ rest /\ field12 g = true /\ r = f g
                 /\ (String.length g = 2%nat \/ starts_with_digit rest = false).
Proof.
  unfold re_digits12. intros E.
  destruct s as [|c1 rest1]; [discriminate|].
  destruct (is_digit c1) eqn:D1; [|discriminate].
  destruct rest1 as [|c2 rest2].
  - exists (String c1 EmptyString), EmptyString. cbn. rewrite D1.
    repeat split; [congruence|now right].
  - destruct (is_digit c2) eqn:D2.
    + exists (String c1 (String c2 EmptyString)), rest2. cbn. rewrite D1, D2.
      repeat split; [congruence|now left].
    + exists (String c1 EmptyString), (String c2 rest2). cbn. rewrite D1, D2.
      repeat split; [congruence|now right].
Qed.

Lemma re_char_inv {A : Type} (p : ascii -> bool) (s : string)
    (k : string -> option A) (r : A) :
  re_char p s k = Some r ->
  exists c rest, s = String c rest /\ p c = true /\ k rest = Some r.
Proof.
  unfold re_char. intros E. destruct s as [|c rest]; [discriminate|].
  destruct (p c) eqn:P; [|discriminate]. exists c, rest. auto.
Qed.

Lemma is_colon_eq (c : ascii) : is_colon c = true -> c = ":"%char.
Proof. unfold is_colon. intros H. now apply Ascii.eqb_eq. Qed.

(** Conversely, a match gives back the shape of the string: [re.match]
    succeeds exactly on the strings that begin with four groups and their
    separators, whatever follows them. *)
Lemma re_match_tc_inv (text H M S F : string) :
  re_match_tc text = Some (H, M, S, F) ->
  exists sep rest,
    text = H ++ ":" ++ M ++ ":" ++ S ++ String sep (F ++ rest)
    /\ field12 H = true /\ field12 M = true /\ field12 S = true
    /\ field12 F = true /\ is_last_sep sep = true
    /\ (String.length F = 2%nat \/ starts_with_digit rest = false).
Proof.
  unfold re_match_tc. intros E.
  apply re_digits12_inv in E. destruct E as (g1 & r1 & -> & F1 & E).
  apply re_char_inv in E. destruct E as (c1 & r1' & -> & C1 & E).
  apply re_digits12_inv in E. destruct E as (g2 & r2 & -> & F2 & E).
  apply re_char_inv in E. destruct E as (c2 & r2' & -> & C2 & E).
  apply re_digits12_inv in E. destruct E as (g3 & r3 & -> & F3 & E).
  apply re_char_inv in E. destruct E as (c3 & r3' & -> & C3 & E).
  apply (re_digits12_last_inv r3' (fun g4 => (g1, g2, g3, g4))) in E.
  destruct E as (g4 & rest & -> & F4 & E & Hmax).
  injection E as <- <- <- <-.
  apply is_colon_eq in C1, C2. subst c1 c2.
  exists c3, rest. repeat split; assumption.
Qed.

Lemma field12_int (x : string) :
  field12 x = true -> exists v, Py.int x = Some v /\ 0 <= v < 100.
Proof.
  intros Hx. field_cases x Hx.
  - pose proof (digit_val_range _ Hx).
    exists (digit_val c). cbn. rewrite Hx. split; [reflexivity|lia].
  - pose proof (digit_val_range c ltac:(assumption)).
    pose proof (digit_val_range c0 ltac:(assumption)).
    exists (digit_val c * 10 + digit_val c0). cbn. use_digits.
    split; [reflexivity|lia].
Qed.

(** What the function returns on a string of the shape above. *)
Lemma tc_string_to_frames_fields (text : string) (fps : Q)
    (H M S F : string) (sep : ascii) (rest : string) (h m s f : Z) :
  1 <= Py.round fps ->
  strip text = H ++ ":" ++ M ++ ":" ++ S ++ String sep (F ++ rest) ->
  field12 H = true -> field12 M = true -> field12 S = true -> field12 F = true ->
  is_last_sep sep = true ->
  String.length F = 2%nat \/ starts_with_digit rest = false ->
  Py.int H = Some h -> Py.int M = Some m -> Py.int S = Some s -> Py.int F = Some f ->
  let d := Py.round fps in
  tc_string_to_frames text fps =
  if (f >=? d) || (m >=? 60) || (s >=? 60) then None
  else Some (h * 3600 * d + m * 60 * d + s * d + f).
Proof.
  intros Hd Hshape FH FM FS FF Hsep Hmax IH IM IS IF d.
  unfold tc_string_to_frames. fold d.
  destruct (Z.leb_spec d 0) as [H0|H0]; [lia|].
  rewrite Hshape, re_match_tc_fields by assumption.
  rewrite IH, IM, IS, IF.
  destruct (field12_int H FH) as (h' & Eh & Rh).
  destruct (field12_int M FM) as (m' & Em & Rm).
  destruct (field12_int S FS) as (s' & Es & Rs).
  destruct (field12_int F FF) as (f' & Ef & Rf).
  assert (h' = h) by congruence. assert (m' = m) by congruence.
  assert (s' = s) by congruence. assert (f' = f) by congruence. subst.
  replace (h <? 0) with false by (symmetry; apply Z.ltb_ge; lia).
  replace (m <? 0) with false by (symmetry; apply Z.ltb_ge; lia).
  replace (s <? 0) with false by (symmetry; apply Z.ltb_ge; lia).
  replace (f <? 0) with false by (symmetry; apply Z.ltb_ge; lia).
  rewrite !orb_false_r.
  destruct ((f >=? d) || (m >=? 60) || (s >=? 60)); [reflexivity|].
  f_equal. ring.
Qed.

(** C3: a string which, once stripped, begins with four groups of one or two
    digits reading [h], [m], [s], [f] (colons after the first two, a
    separator of the class [:;.] after the third, the last group as long as
    it can be) is rejected at display rate [d >= 1] when [f >= d] or
    [m >= 60] or [s >= 60], and gives [h*3600*d + m*60*d + s*d + f]
    otherwise; the three examples of the spec at the rate labelled "30". *)
Theorem tc_string_to_frames_spec (text : string) (fps : Q)
    (H M S F : string) (sep : ascii) (rest : string) (h m s f : Z) :
  1 <= Py.round fps ->
  strip text = H ++ ":" ++ M ++ ":" ++ S ++ String sep (F ++ rest) ->
  field12 H = true -> field12 M = true -> field12 S = true -> field12 F = true ->
  is_last_sep sep = true ->
  String.length F = 2%nat \/ starts_with_digit rest = false ->
  Py.int H = Some h -> Py.int M = Some m -> Py.int S = Some s -> Py.int F = Some f ->
  let d := Py.round fps in
  tc_string_to_frames text fps =
    (if (f >=? d) || (m >=? 60) || (s >=? 60) then None
     else Some (h * 3600 * d + m * 60 * d + s * d + f))
  /\ option_map (tc_string_to_frames "00:00:01:15") (FRAMERATES_get "30") = Some (Some 45)
  /\ option_map (tc_string_to_frames "00:00:00:30") (FRAMERATES_get "30") = Some None
  /\ option_map (tc_string_to_frames "bad") (FRAMERATES_get "30") = Some None.
Proof.
  intros Hd Hshape FH FM FS FF Hsep Hmax IH IM IS IF d.
  split.
  - apply (tc_string_to_frames_fields text fps H M S F sep rest); assumption.
  - repeat split; reflexivity.
Qed.

Lemma tc_string_to_frames_spec_witness :
  tc_string_to_frames "  1:02:3;04 " (25 # 1) = Some (1 * 3600 * 25 + 2 * 60 * 25 + 3 * 25 + 4)
  /\ tc_string_to_frames "00:61:00:00" (25 # 1) = None.
Proof.
  split.
  - refine (proj1 (tc_string_to_frames_spec "  1:02:3;04 " (25 # 1)
                     "1" "02" "3" "04" ";"%char "" 1 2 3 4 _ _ _ _ _ _ _ _ _ _ _ _));
      try reflexivity.
    + vm_compute. discriminate.
    + left. reflexivity.
  - refine (proj1 (tc_string_to_frames_spec "00:61:00:00" (25 # 1)
                     "00" "61" "00" "00" ":"%char "" 0 61 0 0 _ _ _ _ _ _ _ _ _ _ _ _));
      try reflexivity.
    + vm_compute. discriminate.
    + left. reflexivity.
Defined.

(** What is required of an accepted string: its stripped form begins with
    the four groups and their separators. *)
Lemma tc_string_to_frames_accepted_shape (text : string) (fps : Q) (n : Z) :
  tc_string_to_frames text fps = Some n ->
  exists H M S F sep rest,
    strip text = H ++ ":" ++ M ++ ":" ++ S ++ String sep (F ++ rest)
    /\ field12 H = true /\ field12 M = true /\ field12 S = true
    /\ field12 F = true /\ is_last_sep sep = true.
Proof.
  unfold tc_string_to_frames. intros E.
  destruct (Py.round fps <=? 0); [discriminate|].
  destruct (re_match_tc (strip text)) as [[[[H M] S] F]|] eqn:R; [|discriminate].
  apply re_match_tc_inv in R.
  destruct R as (sep & rest & Hs & FH & FM & FS & FF & Hsep & _).
  exists H, M, S, F, sep, rest. auto 10.
Qed.

(** C4 (what the code does): text after the fourth group does not cause
    rejection.  At 30 fps "00:00:01:15xyz" is read as 45 frames, and of
    "00:00:00:123" only the frame digits "12" are read. *)
Theorem tc_string_to_frames_accepts_trailing_text :
  tc_string_to_frames "00:00:01:15xyz" (30 # 1) = Some 45
  /\ tc_string_to_frames "00:00:00:123" (30 # 1) = Some 12
  /\ tc_string_to_frames "00:00:01:15" (30 # 1) = Some 45.
Proof. repeat split; reflexivity. Qed.

(** ** The rate table *)

(** C5: the display rate of each entry of [FRAMERATES] is the rounding of its
    precise value, 30, 30, 25, 24 and 24 in the order of the table, and it is
    the rate both conversions compute with: at every entry the formatter
    divides the frame count by it and the parser multiplies by it and bounds
    the frame number by it.  At the entry labelled "29.97", whose precise
    value is not 30, that rate is 30: frame 29 is the last of a second and
    frame 30 the first of the next, "00:00:00:29" is accepted and
    "00:00:00:30" is not, and both conversions agree everywhere with those
    at the rate 30.0. *)
Theorem display_rate_is_nominal :
  map (fun kv => (fst kv, Py.round (snd kv))) FRAMERATES
  = [("30", 30); ("29.97", 30); ("25", 25); ("24", 24); ("23.976", 24)]
  /\ (forall label fps frames,
        In (label, fps) FRAMERATES -> 0 <= frames ->
        let d := Py.round fps in
        frames_to_tc_string frames fps =
        Ok (format_02d (frames / d / 60 / 60) ++ ":"
            ++ format_02d ((frames / d / 60) mod 60) ++ ":"
            ++ format_02d ((frames / d) mod 60) ++ ":" ++ format_02d (frames mod d)))
  /\ (forall label fps text H M S F sep rest h m s f,
        In (label, fps) FRAMERATES ->
        strip text = H ++ ":" ++ M ++ ":" ++ S ++ String sep (F ++ rest) ->
        field12 H = true -> field12 M = true -> field12 S = true ->
        field12 F = true -> is_last_sep sep = true ->
        String.length F = 2%nat \/ starts_with_digit rest = false ->
        Py.int H = Some h -> Py.int M = Some m -> Py.int S = Some s ->
        Py.int F = Some f ->
        let d := Py.round fps in
        tc_string_to_frames text fps =
        if (f >=? d) || (m >=? 60) || (s >=? 60) then None
        else Some (h * 3600 * d + m * 60 * d + s * d + f))
  /\ exists fps,
       FRAMERATES_get "29.97" = Some fps
       /\ ~ (fps == 30 # 1)%Q
       /\ Py.round fps = 30
       /\ (forall frames, 0 <= frames ->
             frames_to_tc_string frames fps =
             Ok (format_02d (frames / 30 / 60 / 60) ++ ":"
                 ++ format_02d ((frames / 30 / 60) mod 60) ++ ":"
                 ++ format_02d ((frames / 30) mod 60) ++ ":"
                 ++ format_02d (frames mod 30)))
       /\ frames_to_tc_string 29 fps = Ok "00:00:00:29"
       /\ frames_to_tc_string 30 fps = Ok "00:00:01:00"
       /\ tc_string_to_frames "00:00:00:29" fps = Some 29
       /\ tc_string_to_frames "00:00:00:30" fps = None
       /\ tc_string_to_frames "00:00:01:00" fps = Some 30
       /\ (forall n, frames_to_tc_string n fps = frames_to_tc_string n (30 # 1))
       /\ (forall text, tc_string_to_frames text fps = tc_string_to_frames text (30 # 1)).
Proof.
  split; [reflexivity|]. split; [|split].
  - intros label fps frames Hin Hf d.
    pose proof (FRAMERATES_display_range label fps Hin) as Hd.
    rewrite frames_to_tc_string_fields by lia.
    rewrite Z.max_r by exact Hf. reflexivity.
  - intros label fps text H M S F sep rest h m s f Hin Hshape FH FM FS FF Hsep
      Hmax IH IM IS IF d.
    pose proof (FRAMERATES_display_range label fps Hin) as Hd.
    apply (tc_string_to_frames_fields text fps H M S F sep rest); (assumption || lia).
  - eexists. split; [reflexivity|].
    assert (R : Py.round (1054476685978981 # 35184372088832) = 30) by reflexivity.
    assert (R30 : Py.round (30 # 1) = 30) by reflexivity.
    split; [intros H; vm_compute in H; discriminate|].
    split; [exact R|].
    split.
    { intros frames Hf.
      rewrite frames_to_tc_string_fields by (rewrite R; lia).
      rewrite R, Z.max_r by exact Hf. reflexivity. }
    do 5 (split; [reflexivity|]).
    split.
    + intros n. unfold frames_to_tc_string, frames_to_tc_string_with.
      rewrite R, R30. reflexivity.
    + intros text. unfold tc_string_to_frames. rewrite R, R30. reflexivity.
Qed.

Lemma display_rate_is_nominal_witness :
  frames_to_tc_string 1798 (1054476685978981 # 35184372088832) = Ok "00:00:59:28"
  /\ tc_string_to_frames "0:0:59;23" (6748650790265479 # 281474976710656)
     = Some (59 * 24 + 23)
  /\ tc_string_to_frames "0:0:59;24" (6748650790265479 # 281474976710656) = None.
Proof.
  destruct display_rate_is_nominal as (_ & Hfmt & Hparse & _).
  split; [|split].
  - apply (Hfmt "29.97" (1054476685978981 # 35184372088832) 1798).
    + cbn. right. left. reflexivity.
    + lia.
  - assert (X := Hparse "23.976" (6748650790265479 # 281474976710656) "0:0:59;23"
                   "0" "0" "59" "23" ";"%char "" 0 0 59 23
                   (or_intror (or_intror (or_intror (or_intror (or_introl eq_refl)))))
                   eq_refl eq_refl eq_refl eq_refl eq_refl eq_refl
                   (or_introl eq_refl) eq_refl eq_refl eq_refl eq_refl).
    cbv zeta in X. rewrite X. reflexivity.
  - assert (X := Hparse "23.976" (6748650790265479 # 281474976710656) "0:0:59;24"
                   "0" "0" "59" "24" ";"%char "" 0 0 59 24
                   (or_intror (or_intror (or_intror (or_intror (or_introl eq_refl)))))
                   eq_refl eq_refl eq_refl eq_refl eq_refl eq_refl
                   (or_introl eq_refl) eq_refl eq_refl eq_refl eq_refl).
    cbv zeta in X. rewrite X. reflexivity.
Defined.

(** ** Round trip *)

Lemma rstrip_id (s : string) : ends_nonspace s = true -> rstrip s = s.
Proof.
  induction s as [|a s IH]; [discriminate|].
  destruct s as [|b s].
  - cbn. intros H. apply negb_true_iff in H. rewrite H. reflexivity.
  - intros H. change (ends_nonspace (String b s) = true) in H.
    cbn [rstrip] in *. rewrite (IH H). reflexivity.
Qed.

Lemma two_digit_field (k : Z) :
  0 <= k < 100 ->
  field12 (String (digit_char (k / 10)) (String (digit_char (k mod 10)) EmptyString)) = true.
Proof.
  intros Hk. cbn [field12].
  rewrite !is_digit_digit_char; [reflexivity| |].
  - apply Z.mod_pos_bound; lia.
  - split; [apply Z.div_pos; lia|apply Z.div_lt_upper_bound; lia].
Qed.

(** The round trip for any rate whose display rate is between 1 and 100 and
    any count whose hour field has at most two digits. *)
Lemma round_trip_two_digit_fields (n : Z) (fps : Q) :
  1 <= Py.round fps <= 100 ->
  0 <= n < 100 * 3600 * Py.round fps ->
  exists out,
    frames_to_tc_string n fps = Ok out /\ tc_string_to_frames out fps = Some n.
Proof.
  intros Hd Hn.
  pose proof (frames_to_tc_string_fields n fps ltac:(lia)) as E.
  cbv zeta in E. rewrite Z.max_r in E by lia.
  set (d := Py.round fps) in *.
  set (a := n / d) in *. set (b := a / 60) in *.
  assert (Ha : 0 <= a < 360000).
  { split; [apply Z.div_pos; lia|apply Z.div_lt_upper_bound; lia]. }
  assert (Hb : 0 <= b < 6000).
  { split; [apply Z.div_pos; lia|apply Z.div_lt_upper_bound; lia]. }
  assert (Hh : 0 <= b / 60 < 100).
  { split; [apply Z.div_pos; lia|apply Z.div_lt_upper_bound; lia]. }
  pose proof (Z.mod_pos_bound b 60 ltac:(lia)) as Hm.
  pose proof (Z.mod_pos_bound a 60 ltac:(lia)) as Hs.
  pose proof (Z.mod_pos_bound n d ltac:(lia)) as Hf.
  eexists. split; [exact E|].
  assert (Hfields :
    tc_string_to_frames
      (format_02d (b / 60) ++ ":" ++ format_02d (b mod 60) ++ ":"
       ++ format_02d (a mod 60) ++ ":" ++ format_02d (n mod d)) fps
    = if (n mod d >=? d) || (b mod 60 >=? 60) || (a mod 60 >=? 60) then None
      else Some (b / 60 * 3600 * d + b mod 60 * 60 * d + a mod 60 * d + n mod d)).
  { apply (tc_string_to_frames_fields _ fps (format_02d (b / 60))
             (format_02d (b mod 60)) (format_02d (a mod 60))
             (format_02d (n mod d)) ":"%char EmptyString);
      try (rewrite format_02d_two_digits by lia; apply two_digit_field; lia);
      try (apply int_format_02d; lia).
    - lia.
    - rewrite !(format_02d_two_digits (b / 60)), !(format_02d_two_digits (b mod 60)),
        !(format_02d_two_digits (a mod 60)), !(format_02d_two_digits (n mod d)) by lia.
      unfold strip. cbn [append lstrip].
      rewrite is_space_digit_char
        by (split; [apply Z.div_pos; lia|apply Z.div_lt_upper_bound; lia]).
      apply rstrip_id. cbn [ends_nonspace].
      rewrite is_space_digit_char by (apply Z.mod_pos_bound; lia).
      reflexivity.
    - reflexivity.
    - left. rewrite format_02d_two_digits by lia. reflexivity. }
  rewrite Hfields.
  replace (n mod d >=? d) with false by (symmetry; rewrite Z.geb_leb; apply Z.leb_gt; lia).
  replace (b mod 60 >=? 60) with false by (symmetry; rewrite Z.geb_leb; apply Z.leb_gt; lia).
  replace (a mod 60 >=? 60) with false by (symmetry; rewrite Z.geb_leb; apply Z.leb_gt; lia).
  cbn [orb]. f_equal.
  pose proof (Z.div_mod n d ltac:(lia)) as E1. fold a in E1.
  pose proof (Z.div_mod a 60 ltac:(lia)) as E2. fold b in E2.
  pose proof (Z.div_mod b 60 ltac:(lia)) as E3.
  nia.
Qed.

(** C1: for every entry of [FRAMERATES], with display rate [d], and every
    count [0 <= n < 24*3600*d], formatting [n] returns a string and parsing
    that string at the same rate gives [n] back. *)
Theorem round_trip (label : string) (fps : Q) (n : Z) :
  In (label, fps) FRAMERATES ->
  0 <= n < 24 * 3600 * Py.round fps ->
  exists out,
    frames_to_tc_string n fps = Ok out /\ tc_string_to_frames out fps = Some n.
Proof.
  intros Hin Hn.
  pose proof (FRAMERATES_display_range label fps Hin) as Hd.
  apply round_trip_two_digit_fields; [exact Hd|nia].
Qed.

Lemma round_trip_witness :
  exists out,
    frames_to_tc_string 2073599 (1054476685978981 # 35184372088832) = Ok out
    /\ tc_string_to_frames out (1054476685978981 # 35184372088832) = Some 2073599.
Proof.
  apply (round_trip "29.97" (1054476685978981 # 35184372088832) 2073599).
  - cbn. right. left. reflexivity.
  - vm_compute. split; [discriminate|reflexivity].
Defined.

(** ** Offset and reset *)

Lemma toggle_play_pause_stops (a : app) :
  is_running a = true ->
  let a' := toggle_play_pause a in
  is_running a' = false /\ offset_var a' = offset_var a /\ fps a' = fps a.
Proof. intros H. unfold toggle_play_pause. rewrite H. cbn. auto. Qed.

(** C9: [parse_and_set_offset] always returns; when the offset text does not
    parse it shows the error dialog, stores offset 0 and writes
    "00:00:00:00" back to the entry; when the text parses to [n] it stores
    [n] and leaves the entry alone.  [reset_timecode] returns normally with
    the engine stopped, the offset stored as just said, the frame counter
    equal to it, and the counter's timecode shown on the display. *)
Theorem offset_and_reset (a : app) (send_ok : bool) :
  let parsed := tc_string_to_frames (offset_var a) (fps a) in
  (parsed = None ->
   let a' := parse_and_set_offset a in
   effects a' = (effects a ++ [EvShowError "Invalid Offset"])%list
   /\ start_frame a' = 0 /\ offset_var a' = "00:00:00:00"
   /\ current_frame a' = current_frame a /\ is_running a' = is_running a)
  /\ (forall n, parsed = Some n ->
      let a' := parse_and_set_offset a in
      effects a' = effects a
      /\ start_frame a' = n /\ offset_var a' = offset_var a
      /\ current_frame a' = current_frame a /\ is_running a' = is_running a)
  /\ exists a' tc_string,
       reset_timecode send_ok a = Ok a'
       /\ is_running a' = false
       /\ start_frame a' = match parsed with Some n => n | None => 0 end
       /\ offset_var a' = match parsed with Some _ => offset_var a | None => "00:00:00:00" end
       /\ current_frame a' = start_frame a'
       /\ frames_to_tc_string (current_frame a') (fps a) = Ok tc_string
       /\ In (EvDisplay tc_string) (effects a').
Proof.
  intros parsed. split; [|split].
  - intros E. unfold parse_and_set_offset. fold parsed. rewrite E. cbn. auto.
  - intros n E. unfold parse_and_set_offset. fold parsed. rewrite E. cbn. auto.
  - unfold reset_timecode.
    set (a0 := if is_running a then toggle_play_pause a else a).
    assert (H0 : is_running a0 = false /\ offset_var a0 = offset_var a /\ fps a0 = fps a).
    { unfold a0. destruct (is_running a) eqn:R; [|auto].
      apply toggle_play_pause_stops, R. }
    destruct H0 as (R0 & O0 & F0).
    set (a1 := parse_and_set_offset a0).
    assert (H1 : is_running a1 = false /\ fps a1 = fps a
                 /\ start_frame a1 = match parsed with Some n => n | None => 0 end
                 /\ offset_var a1 = match parsed with
                                    | Some _ => offset_var a
                                    | None => "00:00:00:00"
                                    end).
    { unfold a1, parse_and_set_offset. rewrite O0, F0. fold parsed.
      destruct parsed; cbn; auto. }
    destruct H1 as (R1 & F1 & S1 & O1).
    destruct (frames_to_tc_string_total (start_frame a1) (fps a)) as [tc Htc].
    cbn [current_frame set_current_frame fps]. rewrite F1, Htc. cbn [Py.bind].
    eexists. exists tc. split; [reflexivity|].
    cbn. destruct (osc_client a1); cbn; rewrite ?R1, ?O1;
      (repeat split; try reflexivity;
       first [exact S1 | exact Htc | rewrite !in_app_iff; cbn; auto 8]).
Qed.

Lemma offset_and_reset_witness :
  (start_frame
     (parse_and_set_offset
        (mkApp true true true 7 99 (30 # 1) "30" "/timecode" (100 # 1) "bad" [])) = 0
   /\ offset_var
        (parse_and_set_offset
           (mkApp true true true 7 99 (30 # 1) "30" "/timecode" (100 # 1) "bad" []))
      = "00:00:00:00")
  /\ start_frame
       (parse_and_set_offset
          (mkApp true true true 7 99 (30 # 1) "30" "/timecode" (100 # 1)
                 "00:00:01:15" [])) = 45.
Proof.
  split.
  - destruct (proj1 (offset_and_reset
                       (mkApp true true true 7 99 (30 # 1) "30" "/timecode"
                              (100 # 1) "bad" []) true) eq_refl)
      as (_ & H1 & H2 & _).
    split; [exact H1|exact H2].
  - destruct (proj1 (proj2 (offset_and_reset
                              (mkApp true true true 7 99 (30 # 1) "30" "/timecode"
                                     (100 # 1) "00:00:01:15" []) true)) 45 eq_refl)
      as (_ & H1 & _).
    exact H1.
Defined.

(** ** The tick loop *)

Lemma truediv_100 (x : Q) : Py.truediv x (100 # 1) = Ok (x / (100 # 1))%Q.
Proof. reflexivity. Qed.

Lemma Qle_bool_div_100 (x : Q) : Qle_bool (x / (100 # 1)) 0 = Qle_bool x 0.
Proof.
  destruct x as [p q]. unfold Qle_bool, Qdiv, Qmult, Qinv. cbn.
  destruct (Z.leb_spec (p * 1 * 1) 0), (Z.leb_spec (p * 1) 0); (reflexivity || lia).
Qed.

Lemma Qle_bool_false (x : Q) : (0 < x)%Q -> Qle_bool x 0 = false.
Proof.
  intros H. destruct (Qle_bool x 0) eqn:E; [|reflexivity].
  apply Qle_bool_iff in E. exfalso. apply (Qlt_not_le _ _ H E).
Qed.

Lemma Qeq_bool_false (x : Q) : (0 < x)%Q -> Qeq_bool x 0 = false.
Proof.
  intros H. destruct (Qeq_bool x 0) eqn:E; [|reflexivity].
  apply Qeq_bool_iff in E. rewrite E in H. exfalso. apply (Qlt_irrefl _ H).
Qed.

Lemma speed_multiplier_pos (x : Q) : (0 < x)%Q -> (0 < x / (100 # 1))%Q.
Proof. intros H. apply Qlt_shift_div_l; [reflexivity|]. now rewrite Qmult_0_l. Qed.

Lemma paused_guard (e : tick_env) :
  paused_env e ->
  Qle_bool (env_speed_var e / (100 # 1)) 0 || Qle_bool (env_fps e) 0 = true.
Proof.
  intros [H|H]; apply orb_true_iff; [left|right].
  - rewrite Qle_bool_div_100. apply Qle_bool_iff, H.
  - apply Qle_bool_iff, H.
Qed.

Lemma timecode_loop_iter_paused (e : tick_env) (st : loop_state) :
  paused_env e ->
  timecode_loop_iter e st =
  Ok (mkLoop (loop_current_frame st) (env_perf_counter e) (loop_effects st)
             (slept st ++ [1 # 20])%list, false).
Proof.
  intros H. unfold timecode_loop_iter. rewrite truediv_100. cbn [Py.bind].
  rewrite (paused_guard e H). reflexivity.
Qed.

Lemma timecode_loop_run_paused (envs : list tick_env) (st : loop_state) :
  Forall paused_env envs ->
  exists st',
    timecode_loop_run envs st = Ok st'
    /\ loop_current_frame st' = loop_current_frame st
    /\ loop_effects st' = loop_effects st.
Proof.
  intros H. revert st. induction H as [|e envs He Hrest IH]; intros st.
  - exists st. cbn. auto.
  - cbn [timecode_loop_run]. destruct (env_is_running e); [|exists st; auto].
    rewrite (timecode_loop_iter_paused e st He). cbn [Py.bind andb].
    destruct (IH (mkLoop (loop_current_frame st) (env_perf_counter e)
                         (loop_effects st) (slept st ++ [1 # 20])%list))
      as (st' & E & Hf & Hev).
    exists st'. auto.
Qed.

(** C7: an iteration whose snapshot has speed at most 0, or a rate at most
    0, leaves the frame counter and the effects as they were, emits
    nothing, sets [last_time] to the clock reading and goes back to the loop
    test; a loop that meets only such snapshots ends with the frame counter it
    started from and without any effect. *)
Theorem paused_loop_is_silent (e : tick_env) (st : loop_state)
    (envs : list tick_env) (initial_frame : Z) (t0 : Q) :
  paused_env e ->
  Forall paused_env envs ->
  (exists st',
     timecode_loop_iter e st = Ok (st', false)
     /\ loop_current_frame st' = loop_current_frame st
     /\ loop_effects st' = loop_effects st
     /\ last_time st' = env_perf_counter e)
  /\ (exists st',
        timecode_loop initial_frame t0 envs = Ok st'
        /\ loop_current_frame st' = initial_frame
        /\ loop_effects st' = []).
Proof.
  intros He Henvs. split.
  - eexists. split; [apply timecode_loop_iter_paused, He|]. cbn. auto.
  - unfold timecode_loop.
    destruct (timecode_loop_run_paused envs (mkLoop initial_frame t0 [] []) Henvs)
      as (st' & E & Hf & Hev).
    exists st'. auto.
Qed.

Lemma paused_loop_is_silent_witness :
  (exists st',
     timecode_loop_iter (mkEnv true 0 (30 # 1) true "/timecode" true (5 # 1) true)
       (mkLoop 45 (1 # 1) [] []) = Ok (st', false)
     /\ loop_current_frame st' = 45
     /\ loop_effects st' = []
     /\ last_time st' = 5 # 1)
  /\ (exists st',
        timecode_loop 45 (1 # 1)
          [mkEnv true 0 (30 # 1) true "/timecode" true (5 # 1) true;
           mkEnv true (100 # 1) 0 true "/timecode" true (6 # 1) true;
           mkEnv true (-3 # 1) (30 # 1) true "/timecode" true (7 # 1) true] = Ok st'
        /\ loop_current_frame st' = 45
        /\ loop_effects st' = []).
Proof.
  apply (paused_loop_is_silent
           (mkEnv true 0 (30 # 1) true "/timecode" true (5 # 1) true)
           (mkLoop 45 (1 # 1) [] [])
           [mkEnv true 0 (30 # 1) true "/timecode" true (5 # 1) true;
            mkEnv true (100 # 1) 0 true "/timecode" true (6 # 1) true;
            mkEnv true (-3 # 1) (30 # 1) true "/timecode" true (7 # 1) true]
           45 (1 # 1)).
  - left. vm_compute. discriminate.
  - repeat constructor; vm_compute; discriminate.
Defined.

(** C8: an iteration whose snapshot has a positive speed and a positive rate
    formats the current frame counter with the base rate of the snapshot,
    shows that string and hands it to the OSC sender, advances the frame
    counter by exactly 1 and moves [last_time] on by the frame duration;
    with any other positive speed the same iteration gives the same frame
    counter and the same effects. *)
Theorem tick_advances_one_frame (e : tick_env) (st : loop_state) :
  (0 < env_speed_var e)%Q -> (0 < env_fps e)%Q ->
  exists tc_string st',
    timecode_loop_iter e st = Ok (st', true)
    /\ frames_to_tc_string (loop_current_frame st) (env_fps e) = Ok tc_string
    /\ loop_current_frame st' = loop_current_frame st + 1
    /\ loop_effects st' =
       (loop_effects st
        ++ EvDisplay tc_string
           :: send_osc_effects (env_osc_client e) (env_is_running e)
                (env_osc_address_var e) (env_send_ok e) tc_string)%list
    /\ last_time st' =
       (last_time st + 1 / (env_fps e * (env_speed_var e / (100 # 1))))%Q
    /\ forall speed' : Q, (0 < speed')%Q ->
       exists st'',
         timecode_loop_iter
           (mkEnv (env_is_running e) speed' (env_fps e) (env_osc_client e)
                  (env_osc_address_var e) (env_send_ok e) (env_perf_counter e)
                  (env_is_running_after e)) st = Ok (st'', true)
         /\ loop_current_frame st'' = loop_current_frame st'
         /\ loop_effects st'' = loop_effects st'.
Proof.
  intros Hs Hf.
  destruct (frames_to_tc_string_total (loop_current_frame st) (env_fps e)) as [tc Htc].
  assert (Step : forall speed : Q, (0 < speed)%Q ->
            forall e', env_speed_var e' = speed -> env_fps e' = env_fps e ->
            exists sl,
              timecode_loop_iter e' st =
              Ok (mkLoop (loop_current_frame st + 1)
                    (last_time st + 1 / (env_fps e * (speed / (100 # 1))))%Q
                    (loop_effects st
                     ++ EvDisplay tc
                        :: send_osc_effects (env_osc_client e') (env_is_running e')
                             (env_osc_address_var e') (env_send_ok e') tc)%list
                    sl, true)).
  { intros speed Hsp e' Es Ef. unfold timecode_loop_iter.
    rewrite truediv_100. cbn [Py.bind]. rewrite Es, Ef.
    rewrite (Qle_bool_false _ (speed_multiplier_pos _ Hsp)), (Qle_bool_false _ Hf).
    cbn [orb]. unfold Py.truediv.
    rewrite Qeq_bool_false
      by (apply Qmult_lt_0_compat; [exact Hf|apply speed_multiplier_pos, Hsp]).
    cbn [Py.bind]. unfold Py.round_int. rewrite Htc. cbn [Py.bind].
    eexists. reflexivity. }
  destruct (Step (env_speed_var e) Hs e eq_refl eq_refl) as [sl E].
  exists tc. eexists. split; [exact E|]. cbn.
  repeat (split; [first [exact Htc|reflexivity]|]).
  intros speed' Hsp'.
  destruct (Step speed' Hsp' (mkEnv (env_is_running e) speed' (env_fps e)
              (env_osc_client e) (env_osc_address_var e) (env_send_ok e)
              (env_perf_counter e) (env_is_running_after e)) eq_refl eq_refl)
    as [sl' E'].
  eexists. split; [exact E'|]. cbn. auto.
Qed.

Lemma tick_advances_one_frame_witness :
  exists tc_string st',
    timecode_loop_iter (mkEnv true (50 # 1) (30 # 1) true "/timecode" true (5 # 1) true)
      (mkLoop 45 (1 # 1) [] []) = Ok (st', true)
    /\ frames_to_tc_string 45 (30 # 1) = Ok tc_string
    /\ loop_current_frame st' = 45 + 1
    /\ loop_effects st' = [EvDisplay tc_string; EvOscSend "/timecode" tc_string]
    /\ exists st'',
         timecode_loop_iter
           (mkEnv true (200 # 1) (30 # 1) true "/timecode" true (5 # 1) true)
           (mkLoop 45 (1 # 1) [] []) = Ok (st'', true)
         /\ loop_current_frame st'' = loop_current_frame st'
         /\ loop_effects st'' = loop_effects st'.
Proof.
  destruct (tick_advances_one_frame
              (mkEnv true (50 # 1) (30 # 1) true "/timecode" true (5 # 1) true)
              (mkLoop 45 (1 # 1) [] []))
    as (tc & st' & E & Htc & Hfr & Hev & _ & Hspeed).
  - reflexivity.
  - reflexivity.
  - exists tc, st'. repeat (split; [assumption|]).
    apply (Hspeed (200 # 1)). reflexivity.
Defined.

(** * Further properties *)

(** ** What the parser accepts *)

Lemma geb_false (a b : Z) : (a >=? b) = false -> a < b.
Proof. rewrite Z.geb_leb. apply Z.leb_gt. Qed.

Lemma tc_string_to_frames_inv (text : string) (fps : Q) (n : Z) :
  tc_string_to_frames text fps = Some n ->
  1 <= Py.round fps
  /\ exists H M S F sep rest h m s f,
       strip text = H ++ ":" ++ M ++ ":" ++ S ++ String sep (F ++ rest)
       /\ (field12 H = true /\ field12 M = true /\ field12 S = true
           /\ field12 F = true)
       /\ is_last_sep sep = true
       /\ (String.length F = 2%nat \/ starts_with_digit rest = false)
       /\ (Py.int H = Some h /\ Py.int M = Some m /\ Py.int S = Some s
           /\ Py.int F = Some f)
       /\ (0 <= h < 100 /\ 0 <= m < 60 /\ 0 <= s < 60 /\ 0 <= f < 100)
       /\ f < Py.round fps
       /\ n = h * 3600 * Py.round fps + m * 60 * Py.round fps + s * Py.round fps + f.
Proof.
  unfold tc_string_to_frames. intros E.
  destruct (Z.leb_spec (Py.round fps) 0) as [H0|H0]; [discriminate|].
  split; [lia|].
  destruct (re_match_tc (strip text)) as [[[[H M] S] F]|] eqn:R; [|discriminate].
  apply re_match_tc_inv in R.
  destruct R as (sep & rest & Hs & FH & FM & FS & FF & Hsep & Hmax).
  destruct (field12_int H FH) as (h & Eh & Rh).
  destruct (field12_int M FM) as (m & Em & Rm).
  destruct (field12_int S FS) as (s & Es & Rs).
  destruct (field12_int F FF) as (f & Ef & Rf).
  rewrite Eh, Em, Es, Ef in E.
  destruct ((f >=? Py.round fps) || (m >=? 60) || (s >=? 60)
            || (h <? 0) || (m <? 0) || (s <? 0) || (f <? 0)) eqn:C; [discriminate|].
  repeat (apply orb_false_iff in C; destruct C as [C ?]).
  apply geb_false in C.
  repeat match goal with Hg : (_ >=? _) = false |- _ => apply geb_false in Hg end.
  injection E as <-.
  exists H, M, S, F, sep, rest, h, m, s, f.
  repeat split; first [assumption|lia|ring].
Qed.

(** X1: the parser accepts a text with result [n] exactly when the display
    rate is at least 1, the stripped text begins with four groups of one or
    two digits with their separators (the last group as long as it can be),
    minutes and seconds are below 60, the frame number is below the display
    rate, and [n] is the frame count of these fields. *)
Theorem tc_string_to_frames_iff (text : string) (fps : Q) (n : Z) :
  tc_string_to_frames text fps = Some n <->
  (1 <= Py.round fps
   /\ exists H M S F sep rest h m s f,
        strip text = H ++ ":" ++ M ++ ":" ++ S ++ String sep (F ++ rest)
        /\ (field12 H = true /\ field12 M = true /\ field12 S = true
            /\ field12 F = true)
        /\ is_last_sep sep = true
        /\ (String.length F = 2%nat \/ starts_with_digit rest = false)
        /\ (Py.int H = Some h /\ Py.int M = Some m /\ Py.int S = Some s
            /\ Py.int F = Some f)
        /\ m < 60 /\ s < 60 /\ f < Py.round fps
        /\ n = h * 3600 * Py.round fps + m * 60 * Py.round fps + s * Py.round fps + f).
Proof.
  split.
  - intros E. apply tc_string_to_frames_inv in E.
    destruct E as (Hd & H & M & S & F & sep & rest & h & m & s & f
                   & Hs & Hf & Hsep & Hmax & Hi & Hr & Hfd & Hn).
    split; [exact Hd|].
    exists H, M, S, F, sep, rest, h, m, s, f.
    repeat split; first [tauto|lia].
  - intros (Hd & H & M & S & F & sep & rest & h & m & s & f
            & Hs & (FH & FM & FS & FF) & Hsep & Hmax & (IH & IM & IS & IF)
            & Hm & Hsec & Hf & ->).
    rewrite (tc_string_to_frames_fields text fps H M S F sep rest h m s f)
      by assumption.
    replace (f >=? Py.round fps) with false by (symmetry; rewrite Z.geb_leb; apply Z.leb_gt; lia).
    replace (m >=? 60) with false by (symmetry; rewrite Z.geb_leb; apply Z.leb_gt; lia).
    replace (s >=? 60) with false by (symmetry; rewrite Z.geb_leb; apply Z.leb_gt; lia).
    reflexivity.
Qed.

Lemma tc_string_to_frames_iff_witness :
  tc_string_to_frames " 7:08:09.10x" (24 # 1) = Some (7 * 3600 * 24 + 8 * 60 * 24 + 9 * 24 + 10).
Proof.
  apply (proj2 (tc_string_to_frames_iff " 7:08:09.10x" (24 # 1) _)).
  split; [vm_compute; discriminate|].
  exists "7", "08", "09", "10", "."%char, "x", 7, 8, 9, 10.
  repeat split; try reflexivity; try lia.
  left. reflexivity.
Defined.

(** X2: an accepted text gives a frame count that is not negative and lies
    below one hundred hours at the display rate. *)
Theorem tc_string_to_frames_range (text : string) (fps : Q) (n : Z) :
  tc_string_to_frames text fps = Some n ->
  1 <= Py.round fps /\ 0 <= n < 100 * 3600 * Py.round fps.
Proof.
  intros E. apply tc_string_to_frames_inv in E.
  destruct E as (Hd & H & M & S & F & sep & rest & h & m & s & f
                 & _ & _ & _ & _ & _ & (Rh & Rm & Rs & Rf) & Hfd & ->).
  split; [exact Hd|]. nia.
Qed.

Lemma tc_string_to_frames_range_witness :
  1 <= Py.round (25 # 1) /\ 0 <= 8999999 < 100 * 3600 * Py.round (25 # 1).
Proof.
  apply (tc_string_to_frames_range "99:59:59:24" (25 # 1) 8999999).
  reflexivity.
Defined.

(** ** From a parsed offset back to its timecode *)

Lemma strip_two_digit_fields (h m s f : Z) :
  0 <= h < 100 -> 0 <= m < 100 -> 0 <= s < 100 -> 0 <= f < 100 ->
  strip (format_02d h ++ ":" ++ format_02d m ++ ":" ++ format_02d s
         ++ ":" ++ format_02d f)
  = format_02d h ++ ":" ++ format_02d m ++ ":" ++ format_02d s
    ++ ":" ++ format_02d f.
Proof.
  intros Hh Hm Hs Hf.
  rewrite !(format_02d_two_digits h), !(format_02d_two_digits m),
    !(format_02d_two_digits s), !(format_02d_two_digits f) by lia.
  unfold strip. cbn [append lstrip].
  rewrite is_space_digit_char
    by (split; [apply Z.div_pos; lia|apply Z.div_lt_upper_bound; lia]).
  apply rstrip_id. cbn [ends_nonspace].
  rewrite is_space_digit_char by (apply Z.mod_pos_bound; lia).
  reflexivity.
Qed.

(** Parsing four two-digit fields written by [format_02d]. *)
Lemma tc_string_to_frames_canonical (fps : Q) (h m s f : Z) :
  1 <= Py.round fps ->
  0 <= h < 100 -> 0 <= m < 100 -> 0 <= s < 100 -> 0 <= f < 100 ->
  let d := Py.round fps in
  tc_string_to_frames
    (format_02d h ++ ":" ++ format_02d m ++ ":" ++ format_02d s
     ++ ":" ++ format_02d f) fps
  = if (f >=? d) || (m >=? 60) || (s >=? 60) then None
    else Some (h * 3600 * d + m * 60 * d + s * d + f).
Proof.
  intros Hd Hh Hm Hs Hf d.
  apply (tc_string_to_frames_fields _ fps (format_02d h) (format_02d m)
           (format_02d s) (format_02d f) ":"%char EmptyString);
    try (rewrite format_02d_two_digits by lia; apply two_digit_field; lia);
    try (apply int_format_02d; lia).
  - exact Hd.
  - rewrite strip_two_digit_fields by lia.
    rewrite !(format_02d_two_digits f) by lia. reflexivity.
  - reflexivity.
  - left. rewrite format_02d_two_digits by lia. reflexivity.
Qed.

(** The fields of a frame count that was put together from fields. *)
Lemma field_decomposition (d h m s f : Z) :
  1 <= d -> 0 <= h -> 0 <= m < 60 -> 0 <= s < 60 -> 0 <= f < d ->
  let n := h * 3600 * d + m * 60 * d + s * d + f in
  n mod d = f /\ (n / d) mod 60 = s /\ (n / d / 60) mod 60 = m
  /\ n / d / 60 / 60 = h.
Proof.
  intros Hd Hh Hm Hs Hf n.
  assert (E1 : n / d = h * 3600 + m * 60 + s).
  { symmetry. apply (Z.div_unique n d _ f); [lia|unfold n; ring]. }
  assert (E2 : n / d / 60 = h * 60 + m).
  { rewrite E1. symmetry. apply (Z.div_unique _ 60 _ s); [lia|ring]. }
  split; [symmetry; apply (Z.mod_unique n d (h * 3600 + m * 60 + s) f);
          [lia|unfold n; ring]|].
  split; [rewrite E1; symmetry; apply (Z.mod_unique _ 60 (h * 60 + m) s); [lia|ring]|].
  split; [rewrite E2; symmetry; apply (Z.mod_unique _ 60 h m); [lia|ring]|].
  rewrite E2. symmetry. apply (Z.div_unique _ 60 _ m); [lia|ring].
Qed.

Lemma parsed_frames_format (text : string) (fps : Q) (n : Z) :
  tc_string_to_frames text fps = Some n ->
  exists out,
    frames_to_tc_string n fps = Ok out
    /\ tc_string_to_frames out fps = Some n
    /\ String.length out = 11%nat.
Proof.
  intros E. apply tc_string_to_frames_inv in E.
  destruct E as (Hd & H & M & S & F & sep & rest & h & m & s & f
                 & _ & _ & _ & _ & _ & (Rh & Rm & Rs & Rf) & Hfd & Hn).
  set (d := Py.round fps) in *.
  destruct (field_decomposition d h m s f) as (D1 & D2 & D3 & D4); try lia.
  rewrite <- Hn in D1, D2, D3, D4.
  pose proof (frames_to_tc_string_fields n fps Hd) as Fm.
  cbv zeta in Fm. fold d in Fm.
  rewrite Z.max_r in Fm by nia.
  rewrite D1, D2, D3, D4 in Fm.
  eexists. split; [exact Fm|]. split.
  - rewrite tc_string_to_frames_canonical by lia. fold d.
    replace (f >=? d) with false by (symmetry; rewrite Z.geb_leb; apply Z.leb_gt; lia).
    replace (m >=? 60) with false by (symmetry; rewrite Z.geb_leb; apply Z.leb_gt; lia).
    replace (s >=? 60) with false by (symmetry; rewrite Z.geb_leb; apply Z.leb_gt; lia).
    cbn [orb]. f_equal. lia.
  - rewrite !(format_02d_two_digits h), !(format_02d_two_digits m),
      !(format_02d_two_digits s), !(format_02d_two_digits f) by lia.
    reflexivity.
Qed.

(** X3: whatever text the parser accepts, at whatever rate, formatting the
    parsed frame count gives an eleven-character timecode that the parser
    reads as the same count. *)
Theorem format_of_parsed (text : string) (fps : Q) (n : Z) :
  tc_string_to_frames text fps = Some n ->
  exists out,
    frames_to_tc_string n fps = Ok out
    /\ tc_string_to_frames out fps = Some n
    /\ String.length out = 11%nat.
Proof. exact (parsed_frames_format text fps n). Qed.

Lemma format_of_parsed_witness :
  exists out,
    frames_to_tc_string 11106 (120 # 1) = Ok out
    /\ tc_string_to_frames out (120 # 1) = Some 11106
    /\ String.length out = 11%nat.
Proof.
  apply (format_of_parsed " 0:1:32;66 frames" (120 # 1) 11106).
  reflexivity.
Defined.

(** ** Distinct frame counts, distinct timecodes *)

Lemma digits_colon_split (a1 a2 r1 r2 : string) :
  all_digits a1 = true -> all_digits a2 = true ->
  a1 ++ String ":" r1 = a2 ++ String ":" r2 ->
  a1 = a2 /\ r1 = r2.
Proof.
  revert a2. induction a1 as [|c a1 IH]; intros a2 D1 D2 E.
  - destruct a2 as [|c2 a2]; cbn in E.
    + injection E as ->. auto.
    + injection E as <- _. cbn in D2. discriminate.
  - destruct a2 as [|c2 a2]; cbn in E.
    + injection E as -> _. cbn in D1. discriminate.
    + injection E as -> E. cbn in D1, D2.
      apply andb_true_iff in D1. apply andb_true_iff in D2.
      destruct (IH a2) as [-> ->]; tauto.
Qed.

Lemma format_02d_inj (a b : Z) :
  0 <= a -> 0 <= b -> format_02d a = format_02d b -> a = b.
Proof.
  intros Ha Hb E.
  pose proof (int_format_02d a Ha) as Ia.
  pose proof (int_format_02d b Hb) as Ib.
  rewrite E in Ia. congruence.
Qed.

(** X4: at a display rate of at least 1, two frame counts that are not
    negative and have the same timecode are equal, whatever the number of
    hours: the hour field grows instead of wrapping. *)
Theorem frames_to_tc_string_injective (n1 n2 : Z) (fps : Q) :
  1 <= Py.round fps -> 0 <= n1 -> 0 <= n2 ->
  frames_to_tc_string n1 fps = frames_to_tc_string n2 fps ->
  n1 = n2.
Proof.
  intros Hd H1 H2 E.
  rewrite !frames_to_tc_string_fields in E by exact Hd.
  rewrite !Z.max_r in E by assumption.
  set (d := Py.round fps) in *.
  assert (P : forall n, 0 <= n ->
            0 <= n / d / 60 / 60 /\ 0 <= (n / d / 60) mod 60
            /\ 0 <= (n / d) mod 60 /\ 0 <= n mod d).
  { intros n Hn.
    assert (0 <= n / d) by (apply Z.div_pos; lia).
    assert (0 <= n / d / 60) by (apply Z.div_pos; lia).
    split; [apply Z.div_pos; lia|].
    split; [apply Z.mod_pos_bound; lia|].
    split; apply Z.mod_pos_bound; lia. }
  destruct (P n1 H1) as (A1 & B1 & C1 & D1).
  destruct (P n2 H2) as (A2 & B2 & C2 & D2).
  injection E as E.
  apply digits_colon_split in E; try (apply all_digits_format_02d; assumption).
  destruct E as [Eh E].
  apply digits_colon_split in E; try (apply all_digits_format_02d; assumption).
  destruct E as [Em E].
  apply digits_colon_split in E; try (apply all_digits_format_02d; assumption).
  destruct E as [Es Ef].
  apply format_02d_inj in Eh, Em, Es, Ef; try assumption.
  pose proof (Z.div_mod n1 d ltac:(lia)) as Q1.
  pose proof (Z.div_mod n2 d ltac:(lia)) as Q2.
  pose proof (Z.div_mod (n1 / d) 60 ltac:(lia)) as R1.
  pose proof (Z.div_mod (n2 / d) 60 ltac:(lia)) as R2.
  pose proof (Z.div_mod (n1 / d / 60) 60 ltac:(lia)) as S1.
  pose proof (Z.div_mod (n2 / d / 60) 60 ltac:(lia)) as S2.
  assert (T : n1 / d / 60 = n2 / d / 60) by lia.
  assert (U : n1 / d = n2 / d) by lia.
  rewrite Q1, Q2, U, Ef. reflexivity.
Qed.

Lemma frames_to_tc_string_injective_witness : 90 = 60 + 30.
Proof.
  apply (frames_to_tc_string_injective 90 (60 + 30) (30 # 1)).
  - vm_compute. discriminate.
  - lia.
  - lia.
  - reflexivity.
Defined.

(** ** Blanks around the text, and the last separator *)

Lemma lstrip_all_space (ws s : string) :
  all_space ws = true -> lstrip (ws ++ s) = lstrip s.
Proof.
  induction ws as [|c ws IH]; intros H; [reflexivity|].
  cbn in H. apply andb_true_iff in H. destruct H as [Hc Hws].
  cbn. rewrite Hc. apply IH, Hws.
Qed.

Lemma rstrip_all_space (ws : string) : all_space ws = true -> rstrip ws = EmptyString.
Proof.
  induction ws as [|c ws IH]; intros H; [reflexivity|].
  cbn in H. apply andb_true_iff in H. destruct H as [Hc Hws].
  cbn. rewrite (IH Hws), Hc. reflexivity.
Qed.

Lemma rstrip_app_all_space (s ws : string) :
  all_space ws = true -> rstrip (s ++ ws) = rstrip s.
Proof.
  intros H. induction s as [|c s IH]; cbn.
  - apply rstrip_all_space, H.
  - rewrite IH. reflexivity.
Qed.

Lemma lstrip_all_space_nil (s : string) :
  lstrip s = EmptyString -> all_space s = true.
Proof.
  induction s as [|c s IH]; [reflexivity|].
  cbn. destruct (is_space c); [exact IH|discriminate].
Qed.

Lemma all_space_app (s t : string) :
  all_space (s ++ t) = all_space s && all_space t.
Proof.
  induction s as [|c s IH]; cbn; [reflexivity|].
  rewrite IH. apply andb_assoc.
Qed.

Lemma lstrip_app (s t : string) :
  lstrip s <> EmptyString -> lstrip (s ++ t) = lstrip s ++ t.
Proof.
  induction s as [|c s IH]; intros H; [exfalso; apply H; reflexivity|].
  cbn in *. destruct (is_space c); [apply IH, H|reflexivity].
Qed.

Lemma strip_padding (ws1 text ws2 : string) :
  all_space ws1 = true -> all_space ws2 = true ->
  strip (ws1 ++ text ++ ws2) = strip text.
Proof.
  intros H1 H2. unfold strip. rewrite lstrip_all_space by exact H1.
  destruct (lstrip text) eqn:E.
  - pose proof (lstrip_all_space_nil text E) as Ht.
    rewrite rstrip_all_space; [reflexivity|].
    assert (A : all_space (text ++ ws2) = true)
      by (rewrite all_space_app, Ht, H2; reflexivity).
    clear - A. induction (text ++ ws2) as [|c s IH]; [reflexivity|].
    cbn in *. apply andb_true_iff in A. destruct A as [Hc Hs].
    rewrite Hc. apply IH, Hs.
  - rewrite lstrip_app by congruence. rewrite E.
    apply rstrip_app_all_space, H2.
Qed.

(** X5: blanks before and after the text do not change what the parser
    returns. *)
Theorem tc_string_to_frames_padding (ws1 text ws2 : string) (fps : Q) :
  all_space ws1 = true -> all_space ws2 = true ->
  tc_string_to_frames (ws1 ++ text ++ ws2) fps = tc_string_to_frames text fps.
Proof.
  intros H1 H2. unfold tc_string_to_frames.
  rewrite strip_padding by assumption. reflexivity.
Qed.

Lemma tc_string_to_frames_padding_witness :
  tc_string_to_frames
    (String "009" " " ++ "01:02:03:04" ++ String " " (String "010" EmptyString))
    (30 # 1)
  = tc_string_to_frames "01:02:03:04" (30 # 1).
Proof.
  apply (tc_string_to_frames_padding (String "009" " ") "01:02:03:04"
           (String " " (String "010" EmptyString)) (30 # 1)); reflexivity.
Defined.

Lemma is_digit_not_colon (c : ascii) : is_digit c = true -> is_colon c = false.
Proof.
  unfold is_colon. intros H.
  destruct (Ascii.eqb_spec c ":") as [->|]; [discriminate|reflexivity].
Qed.

Lemma is_digit_not_last_sep (c : ascii) : is_digit c = true -> is_last_sep c = false.
Proof.
  unfold is_last_sep. intros H.
  destruct (Ascii.eqb_spec c ":") as [->|]; [discriminate|].
  destruct (Ascii.eqb_spec c ";") as [->|]; [discriminate|].
  destruct (Ascii.eqb_spec c ".") as [->|]; [discriminate|reflexivity].
Qed.

Ltac use_separators :=
  repeat match goal with
         | H : is_digit ?c = true |- context [is_colon ?c] =>
             rewrite (is_digit_not_colon c H)
         | H : is_digit ?c = true |- context [is_last_sep ?c] =>
             rewrite (is_digit_not_last_sep c H)
         end.

(** The matcher does not tell the three separators of the class apart. *)
Lemma re_match_tc_last_sep (H M S : string) (sep : ascii) (tail : string) :
  field12 H = true -> field12 M = true -> field12 S = true ->
  is_last_sep sep = true ->
  re_match_tc (H ++ ":" ++ M ++ ":" ++ S ++ String sep tail)
  = re_match_tc (H ++ ":" ++ M ++ ":" ++ S ++ String ":" tail).
Proof.
  intros HH HM HS Hsep.
  destruct (is_last_sep_cases sep Hsep) as [->|[->| ->]]; clear Hsep;
    [reflexivity| |];
    field_cases H HH; field_cases M HM; field_cases S HS;
    cbn [append]; unfold re_match_tc, re_digits12, re_char;
    use_digits; use_separators; cbn; use_digits; use_separators;
    reflexivity.
Qed.

Lemma rstrip_app_nonspace (a : string) (c : ascii) (b : string) :
  is_space c = false -> rstrip (a ++ String c b) = a ++ String c (rstrip b).
Proof.
  intros Hc. induction a as [|x a IH]; cbn.
  - rewrite Hc. destruct (rstrip b); reflexivity.
  - rewrite IH. destruct a; reflexivity.
Qed.

Lemma is_last_sep_not_space (c : ascii) : is_last_sep c = true -> is_space c = false.
Proof.
  intros H. destruct (is_last_sep_cases c H) as [->|[->| ->]]; reflexivity.
Qed.

Lemma field12_lstrip (H r : string) :
  field12 H = true -> lstrip (H ++ r) = H ++ r.
Proof.
  intros F. destruct H as [|c H]; [discriminate|].
  assert (D : is_digit c = true).
  { destruct H as [|c2 [|? ?]]; cbn in F; try discriminate; [exact F|].
    apply andb_true_iff in F. tauto. }
  cbn. unfold is_digit, is_space in *.
  apply andb_true_iff in D. destruct D as [D1 D2].
  apply Nat.leb_le in D1. apply Nat.leb_le in D2.
  repeat match goal with
         | |- context [(?a <=? ?b)%nat] => destruct (Nat.leb_spec a b)
         | |- context [(?a =? ?b)%nat] => destruct (Nat.eqb_spec a b)
         end; cbn; try reflexivity; lia.
Qed.

Lemma strip_with_separator (H M S : string) (sep : ascii) (tail : string) :
  field12 H = true -> is_last_sep sep = true ->
  strip (H ++ ":" ++ M ++ ":" ++ S ++ String sep tail)
  = H ++ ":" ++ M ++ ":" ++ S ++ String sep (rstrip tail).
Proof.
  intros FH Hsep. unfold strip. rewrite field12_lstrip by exact FH.
  replace (H ++ ":" ++ M ++ ":" ++ S ++ String sep tail)
    with ((H ++ ":" ++ M ++ ":" ++ S) ++ String sep tail)
    by (rewrite !string_app_assoc; reflexivity).
  rewrite rstrip_app_nonspace by (apply is_last_sep_not_space, Hsep).
  rewrite !string_app_assoc. reflexivity.
Qed.

(** X6: after hours, minutes and seconds, a semicolon or a full stop before
    the frame number is read exactly like a colon, whatever follows it. *)
Theorem tc_string_to_frames_last_separator (H M S : string) (sep : ascii)
    (tail : string) (fps : Q) :
  field12 H = true -> field12 M = true -> field12 S = true ->
  is_last_sep sep = true ->
  tc_string_to_frames (H ++ ":" ++ M ++ ":" ++ S ++ String sep tail) fps
  = tc_string_to_frames (H ++ ":" ++ M ++ ":" ++ S ++ String ":" tail) fps.
Proof.
  intros FH FM FS Hsep. unfold tc_string_to_frames.
  rewrite (strip_with_separator H M S sep tail) by assumption.
  rewrite (strip_with_separator H M S ":" tail) by (assumption || reflexivity).
  rewrite (re_match_tc_last_sep H M S sep) by assumption.
  reflexivity.
Qed.

Lemma tc_string_to_frames_last_separator_witness :
  tc_string_to_frames "01:02:03;04" (30 # 1) = tc_string_to_frames "01:02:03:04" (30 # 1)
  /\ tc_string_to_frames "1:2:3.4 " (30 # 1) = tc_string_to_frames "1:2:3:4 " (30 # 1).
Proof.
  split.
  - apply (tc_string_to_frames_last_separator "01" "02" "03" ";" "04" (30 # 1));
      reflexivity.
  - apply (tc_string_to_frames_last_separator "1" "2" "3" "." "4 " (30 # 1));
      reflexivity.
Defined.

(** ** Sending, starting and stopping *)

Lemma address_invalid_startswith (address : string) :
  address_invalid address = negb (startswith_slash address).
Proof. destruct address; reflexivity. Qed.

(** X7: [send_osc_message] leaves each of the ten other fields of the
    object as it was and changes nothing but the effects, to which it
    adds at most one; a message goes out only when a client is set, the
    address starts with a slash and the transport accepts it, and then it
    is the given string sent to the configured address. *)
Theorem send_osc_message_sound (send_ok : bool) (tc_string : string) (a : app) :
  let a' := send_osc_message send_ok tc_string a in
  (osc_client a' = osc_client a /\ is_running a' = is_running a
   /\ timecode_thread a' = timecode_thread a
   /\ start_frame a' = start_frame a /\ current_frame a' = current_frame a
   /\ fps a' = fps a /\ display_fps_label a' = display_fps_label a
   /\ osc_address_var a' = osc_address_var a /\ speed_var a' = speed_var a
   /\ offset_var a' = offset_var a)
  /\ exists evs,
       effects a' = (effects a ++ evs)%list
       /\ (List.length evs <= 1)%nat
       /\ (forall address s,
             In (EvOscSend address s) evs ->
             osc_client a = true /\ startswith_slash address = true
             /\ address = osc_address_var a /\ s = tc_string /\ send_ok = true)
       /\ (osc_client a = true -> startswith_slash (osc_address_var a) = true ->
           send_ok = true -> evs = [EvOscSend (osc_address_var a) tc_string]).
Proof.
  intros a'. split; [cbn; auto 12|].
  exists (send_osc_effects (osc_client a) (is_running a) (osc_address_var a)
            send_ok tc_string).
  split; [reflexivity|].
  unfold send_osc_effects. rewrite address_invalid_startswith.
  destruct (osc_client a), (is_running a),
    (startswith_slash (osc_address_var a)) eqn:Hs, send_ok; cbn; (split; [lia|]);
    (split;
     [intros address s Hin;
      repeat (destruct Hin as [Hin|Hin]); try contradiction; try discriminate Hin;
      injection Hin as <- <-; auto
     |intros H1 H2 H3; try discriminate; reflexivity]).
Qed.

Lemma send_osc_message_sound_witness :
  send_osc_effects true true "/timecode" true "00:00:01:15"
  = [EvOscSend "/timecode" "00:00:01:15"].
Proof.
  destruct (proj2 (send_osc_message_sound true "00:00:01:15"
                     (mkApp true true true 0 45 (30 # 1) "30" "/timecode"
                            (100 # 1) "00:00:00:00" [])))
    as (evs & E & _ & _ & H).
  cbn in E. rewrite (H eq_refl eq_refl eq_refl) in E. exact E.
Defined.

(** X8: [toggle_play_pause] never touches the frame counter, the offset or
    the rate; from running it always stops and drops the thread; from
    stopped it starts exactly when a client is set and the address starts
    with a slash, and otherwise shows an error dialog and stays stopped. *)
Theorem toggle_play_pause_spec (a : app) :
  let a' := toggle_play_pause a in
  (start_frame a' = start_frame a /\ current_frame a' = current_frame a
   /\ offset_var a' = offset_var a /\ fps a' = fps a)
  /\ (is_running a = true ->
      is_running a' = false /\ timecode_thread a' = false
      /\ effects a' = (effects a ++ [EvButton "Play"; EvStatus StPaused])%list)
  /\ (is_running a = false ->
      (is_running a' = true <->
       osc_client a = true /\ startswith_slash (osc_address_var a) = true)
      /\ (is_running a' = true -> timecode_thread a' = true)
      /\ (is_running a' = false ->
          effects a' = (effects a ++ [EvShowError "Error"])%list)).
Proof.
  intros a'. unfold a', toggle_play_pause, update_speed_label.
  rewrite address_invalid_startswith.
  destruct a as [cl run th sf cf fp lb ad sp off evs]. cbn.
  destruct run, cl, (startswith_slash ad), (speed_is_zero sp); cbn;
    repeat split; intros; try discriminate; try tauto;
    try (rewrite <- app_assoc; reflexivity); auto.
Qed.

Lemma toggle_play_pause_spec_witness :
  is_running
    (toggle_play_pause
       (mkApp true true true 0 45 (30 # 1) "30" "/timecode" (100 # 1)
              "00:00:00:00" [])) = false
  /\ is_running
       (toggle_play_pause
          (mkApp true false false 0 45 (30 # 1) "30" "timecode" (100 # 1)
                 "00:00:00:00" [])) = false.
Proof.
  split.
  - apply (proj1 (proj2 (toggle_play_pause_spec
                           (mkApp true true true 0 45 (30 # 1) "30" "/timecode"
                                  (100 # 1) "00:00:00:00" []))) eq_refl).
  - destruct (proj2 (proj2 (toggle_play_pause_spec
                              (mkApp true false false 0 45 (30 # 1) "30" "timecode"
                                     (100 # 1) "00:00:00:00" []))) eq_refl)
      as (Hiff & _ & _).
    destruct (is_running _) eqn:R; [|reflexivity].
    destruct (proj1 Hiff eq_refl) as [_ Hbad]. discriminate Hbad.
Defined.

(** ** Reset and framerate selection *)

Lemma skipn_app_length {A : Type} (l x : list A) :
  skipn (List.length l) (l ++ x) = x.
Proof. induction l as [|a l IH]; [reflexivity|exact IH]. Qed.

Lemma displays_app (l x : list event) :
  displays (l ++ x) = (displays l ++ displays x)%list.
Proof.
  induction l as [|e l IH]; [reflexivity|].
  destruct e; cbn; rewrite IH; reflexivity.
Qed.

Lemma displays_send_osc_effects (client running : bool) (address : string)
    (send_ok : bool) (tc : string) :
  displays (send_osc_effects client running address send_ok tc) = [].
Proof.
  unfold send_osc_effects.
  destruct client, running, (address_invalid address), send_ok; reflexivity.
Qed.

Ltac app_simpl :=
  cbn [osc_client is_running timecode_thread start_frame current_frame fps
       display_fps_label osc_address_var speed_var offset_var effects
       emit set_is_running set_timecode_thread set_start_frame
       set_current_frame set_offset_var set_fps set_display_fps_label
       send_osc_message Py.bind].

Lemma app_ext (a b : app) :
  osc_client a = osc_client b -> is_running a = is_running b ->
  timecode_thread a = timecode_thread b -> start_frame a = start_frame b ->
  current_frame a = current_frame b -> fps a = fps b ->
  display_fps_label a = display_fps_label b ->
  osc_address_var a = osc_address_var b -> speed_var a = speed_var b ->
  offset_var a = offset_var b -> effects a = effects b ->
  a = b.
Proof. destruct a, b. cbn. intros. subst. reflexivity. Qed.

(** The object and the effects that [reset_timecode] leaves. *)
Lemma reset_timecode_explicit (send_ok : bool) (a : app) :
  let a0 := if is_running a then toggle_play_pause a else a in
  let parsed := tc_string_to_frames (offset_var a) (fps a) in
  let n := match parsed with Some n => n | None => 0 end in
  let off := match parsed with Some _ => offset_var a | None => "00:00:00:00" end in
  exists tc,
    frames_to_tc_string n (fps a) = Ok tc
    /\ reset_timecode send_ok a =
       Ok (mkApp (osc_client a) false (timecode_thread a0) n n (fps a)
             (display_fps_label a) (osc_address_var a) (speed_var a) off
             (effects a0
              ++ match parsed with
                 | Some _ => []
                 | None => [EvShowError "Invalid Offset"]
                 end
              ++ [EvDisplay tc]
              ++ (if osc_client a
                  then send_osc_effects true false (osc_address_var a) send_ok tc
                  else [])
              ++ [EvStatus (StResetTo off)])%list).
Proof.
  cbv zeta.
  destruct (frames_to_tc_string_total
              (match tc_string_to_frames (offset_var a) (fps a) with
               | Some n => n
               | None => 0
               end) (fps a)) as [tc Htc].
  exists tc. split; [exact Htc|].
  unfold reset_timecode.
  set (a0 := if is_running a then toggle_play_pause a else a) in *.
  assert (H0 : a0 = mkApp (osc_client a) false (timecode_thread a0) (start_frame a)
                      (current_frame a) (fps a) (display_fps_label a)
                      (osc_address_var a) (speed_var a) (offset_var a) (effects a0)).
  { unfold a0, toggle_play_pause. destruct a as [cl run th sf cf fp lb ad sp ofs evs].
    app_simpl. destruct run; reflexivity. }
  clearbody a0. revert H0.
  generalize (timecode_thread a0) (effects a0). intros th0 ev0 ->.
  unfold parse_and_set_offset.
  cbn [offset_var fps].
  destruct (tc_string_to_frames (offset_var a) (fps a)) as [k|];
    app_simpl; rewrite Htc; app_simpl;
    destruct (osc_client a); f_equal; apply app_ext; app_simpl;
    rewrite <- ?app_assoc; reflexivity.
Qed.

Lemma zero_timecode (fps : Q) :
  1 <= Py.round fps ->
  frames_to_tc_string 0 fps = Ok "00:00:00:00"
  /\ tc_string_to_frames "00:00:00:00" fps = Some 0.
Proof.
  intros Hd. split.
  - rewrite frames_to_tc_string_fields by exact Hd.
    rewrite Z.max_r by lia. rewrite Z.mod_0_l, !Z.div_0_l by lia. reflexivity.
  - change "00:00:00:00"
      with (format_02d 0 ++ ":" ++ format_02d 0 ++ ":" ++ format_02d 0
            ++ ":" ++ format_02d 0).
    rewrite tc_string_to_frames_canonical by lia.
    replace (0 >=? Py.round fps) with false
      by (symmetry; rewrite Z.geb_leb; apply Z.leb_gt; lia).
    reflexivity.
Qed.

(** After a reset the offset entry parses to the stored offset. *)
Lemma reset_offset_parses (a : app) :
  1 <= Py.round (fps a) ->
  let parsed := tc_string_to_frames (offset_var a) (fps a) in
  tc_string_to_frames
    (match parsed with Some _ => offset_var a | None => "00:00:00:00" end) (fps a)
  = Some (match parsed with Some n => n | None => 0 end).
Proof.
  intros Hd parsed. destruct parsed as [n|] eqn:E; [exact E|].
  apply zero_timecode, Hd.
Qed.

(** X9: at a display rate of at least 1, a reset shows exactly one timecode,
    and that timecode parses back to the frame counter the reset has set;
    with a client, an address starting with a slash and a transport that
    accepts the message, the same timecode is sent to that address. *)
Theorem reset_timecode_display (send_ok : bool) (a a' : app) :
  1 <= Py.round (fps a) ->
  reset_timecode send_ok a = Ok a' ->
  exists tc,
    displays (new_effects a a') = [tc]
    /\ tc_string_to_frames tc (fps a) = Some (current_frame a')
    /\ (osc_client a = true -> startswith_slash (osc_address_var a) = true ->
        send_ok = true -> In (EvOscSend (osc_address_var a) tc) (effects a')).
Proof.
  intros Hd E.
  destruct (reset_timecode_explicit send_ok a) as (tc & Htc & E').
  cbv zeta in E'. rewrite E in E'. injection E' as ->.
  exists tc. cbn [current_frame effects].
  set (parsed := tc_string_to_frames (offset_var a) (fps a)) in *.
  assert (Heff : exists pre,
            effects (if is_running a then toggle_play_pause a else a)
            = (effects a ++ pre)%list /\ displays pre = []).
  { destruct (is_running a) eqn:R.
    - exists [EvButton "Play"; EvStatus StPaused].
      unfold toggle_play_pause. rewrite R. cbn. rewrite <- app_assoc. auto.
    - exists []. rewrite app_nil_r. auto. }
  destruct Heff as (pre & Hpre & Dpre).
  split; [|split].
  - unfold new_effects. cbn [effects]. rewrite Hpre, <- app_assoc, skipn_app_length.
    rewrite displays_app, Dpre.
    destruct parsed; destruct (osc_client a);
      cbn [displays List.app];
      rewrite ?displays_app, ?displays_send_osc_effects; reflexivity.
  - destruct parsed as [n|] eqn:P.
    + destruct (parsed_frames_format _ _ _ P) as (out & Ho & Hp & _).
      rewrite Ho in Htc. injection Htc as <-. exact Hp.
    + destruct (zero_timecode (fps a) Hd) as [Hz Hp].
      rewrite Hz in Htc. injection Htc as <-. exact Hp.
  - intros Hc Hs Hok. rewrite Hc. unfold send_osc_effects.
    rewrite address_invalid_startswith, Hs, Hok. cbn.
    rewrite !in_app_iff. cbn. auto 8.
Qed.

Lemma reset_timecode_display_witness :
  exists a' tc,
    reset_timecode true
      (mkApp true true true 7 99 (25 # 1) "25" "/timecode" (100 # 1) "1:2:3;4" [])
    = Ok a'
    /\ displays
         (new_effects
            (mkApp true true true 7 99 (25 # 1) "25" "/timecode" (100 # 1) "1:2:3;4" [])
            a') = [tc]
    /\ tc_string_to_frames tc (25 # 1) = Some (current_frame a')
    /\ In (EvOscSend "/timecode" tc) (effects a').
Proof.
  assert (E : exists a',
            reset_timecode true
              (mkApp true true true 7 99 (25 # 1) "25" "/timecode" (100 # 1)
                     "1:2:3;4" []) = Ok a')
    by (eexists; vm_compute; reflexivity).
  destruct E as [a' E].
  destruct (reset_timecode_display true
              (mkApp true true true 7 99 (25 # 1) "25" "/timecode" (100 # 1)
                     "1:2:3;4" []) a') as (tc & H1 & H2 & H3).
  - vm_compute. discriminate.
  - exact E.
  - exists a', tc. repeat split; try assumption.
    apply H3; reflexivity.
Defined.

(** X10: at a display rate of at least 1, a reset right after a reset finds
    the offset entry valid, whether the first one kept it or corrected it:
    it shows no error dialog and leaves the stored offset, the frame counter
    and the entry as the first reset set them. *)
Theorem reset_timecode_twice (ok1 ok2 : bool) (a a1 : app) :
  1 <= Py.round (fps a) ->
  reset_timecode ok1 a = Ok a1 ->
  exists a2,
    reset_timecode ok2 a1 = Ok a2
    /\ start_frame a2 = start_frame a1
    /\ current_frame a2 = current_frame a1
    /\ offset_var a2 = offset_var a1
    /\ is_running a2 = false
    /\ forall title, ~ In (EvShowError title) (new_effects a1 a2).
Proof.
  intros Hd E.
  destruct (reset_timecode_explicit ok1 a) as (tc & Htc & E1).
  cbv zeta in E1. rewrite E in E1. injection E1 as E1.
  pose proof (reset_offset_parses a Hd) as P. cbv zeta in P.
  destruct (reset_timecode_explicit ok2 a1) as (tc2 & Htc2 & E2).
  cbv zeta in E2.
  assert (R1 : is_running a1 = false) by (rewrite E1; reflexivity).
  assert (F1 : fps a1 = fps a) by (rewrite E1; reflexivity).
  assert (O1 : offset_var a1 =
               match tc_string_to_frames (offset_var a) (fps a) with
               | Some _ => offset_var a
               | None => "00:00:00:00"
               end) by (rewrite E1; reflexivity).
  assert (S1 : start_frame a1 =
               match tc_string_to_frames (offset_var a) (fps a) with
               | Some n => n
               | None => 0
               end) by (rewrite E1; reflexivity).
  assert (C1 : current_frame a1 = start_frame a1) by (rewrite E1; reflexivity).
  rewrite R1, F1, O1, P in E2.
  eexists. split; [exact E2|]. cbn.
  rewrite C1, S1, O1. repeat split; try reflexivity.
  intros title Hin. unfold new_effects in Hin. cbn [effects] in Hin.
  rewrite skipn_app_length in Hin. cbn in Hin.
  destruct Hin as [Hin|Hin]; [discriminate|].
  apply in_app_iff in Hin. destruct Hin as [Hin|Hin].
  - unfold send_osc_effects in Hin.
    destruct (osc_client a1), (address_invalid (osc_address_var a1)), ok2;
      cbn in Hin; intuition discriminate.
  - cbn in Hin. intuition discriminate.
Qed.

Lemma reset_timecode_twice_witness :
  exists a1 a2,
    reset_timecode true
      (mkApp true false false 7 99 (30 # 1) "30" "/timecode" (100 # 1) "bad" [])
    = Ok a1
    /\ reset_timecode false a1 = Ok a2
    /\ start_frame a2 = start_frame a1
    /\ offset_var a2 = offset_var a1.
Proof.
  assert (E : exists a1,
            reset_timecode true
              (mkApp true false false 7 99 (30 # 1) "30" "/timecode" (100 # 1)
                     "bad" []) = Ok a1)
    by (eexists; vm_compute; reflexivity).
  destruct E as [a1 E].
  destruct (reset_timecode_twice true false
              (mkApp true false false 7 99 (30 # 1) "30" "/timecode" (100 # 1)
                     "bad" []) a1) as (a2 & H1 & H2 & _ & H3 & _).
  - vm_compute. discriminate.
  - exact E.
  - exists a1, a2. auto.
Defined.

Lemma FRAMERATES_get_in_sound (tbl : list (string * Q)) (label : string) (v : Q) :
  FRAMERATES_get_in tbl label = Some v -> In (label, v) tbl.
Proof.
  induction tbl as [|[k w] tbl IH]; cbn; [discriminate|].
  destruct (String.eqb_spec k label) as [->|Hne].
  - intros E. injection E as ->. now left.
  - intros E. right. apply IH, E.
Qed.

Lemma FRAMERATES_get_of_entry (label : string) (v : Q) :
  In (label, v) FRAMERATES ->
  FRAMERATES_get label = Some v /\ Qeq_bool v 0 = false.
Proof.
  intros Hin. cbn in Hin.
  repeat (destruct Hin as [Hin|Hin];
          [injection Hin as <- <-; split; reflexivity|]).
  contradiction.
Qed.

(** X11: selecting a label of the table stops the engine, installs the
    precise rate and the label, and resets: the offset entry is parsed
    again at the new rate and the frame counter is set to the result (0 when
    the entry is not valid at that rate); the status bar is told the new
    label.  A label that is not in the table only brings up the error
    dialog: rate, label, counters and running flag stay as they are. *)
Theorem on_fps_selected_spec (label : string) (send_ok : bool) (a : app) :
  (forall v, In (label, v) FRAMERATES ->
     exists a' log,
       on_fps_selected label send_ok a = Ok (a', log)
       /\ is_running a' = false
       /\ fps a' = v /\ display_fps_label a' = label
       /\ start_frame a' = match tc_string_to_frames (offset_var a) v with
                           | Some n => n
                           | None => 0
                           end
       /\ current_frame a' = start_frame a'
       /\ In (FpsStatusSet label) log)
  /\ ((forall v, ~ In (label, v) FRAMERATES) ->
      on_fps_selected label send_ok a
      = Ok (emit [EvShowError "Error"] a, [FpsBase (EvShowError "Error")])).
Proof.
  split.
  - intros v Hin. destruct (FRAMERATES_get_of_entry label v Hin) as [G Z0].
    unfold on_fps_selected. rewrite G, Z0.
    set (a1 := if is_running a then toggle_play_pause a else a).
    assert (O1 : offset_var a1 = offset_var a).
    { unfold a1, toggle_play_pause. destruct (is_running a); reflexivity. }
    set (a2 := set_fps v (set_display_fps_label label a1)).
    destruct (reset_timecode_explicit send_ok a2) as (tc & _ & E).
    cbv zeta in E. rewrite E. cbn [Py.bind].
    eexists. eexists. split; [reflexivity|].
    cbn. rewrite O1. repeat split; try reflexivity.
    rewrite !in_app_iff. cbn. auto.
  - intros Hnot. unfold on_fps_selected.
    destruct (FRAMERATES_get label) as [v|] eqn:G; [|reflexivity].
    exfalso. apply (Hnot v). apply FRAMERATES_get_in_sound, G.
Qed.

Lemma on_fps_selected_spec_witness :
  (exists a' log,
     on_fps_selected "25" true
       (mkApp true true true 45 60 (30 # 1) "30" "/timecode" (100 # 1)
              "00:00:01:15" []) = Ok (a', log)
     /\ is_running a' = false
     /\ start_frame a' = 40 /\ current_frame a' = start_frame a')
  /\ on_fps_selected "60" true
       (mkApp true true true 45 60 (30 # 1) "30" "/timecode" (100 # 1)
              "00:00:01:15" [])
     = Ok (mkApp true true true 45 60 (30 # 1) "30" "/timecode" (100 # 1)
                 "00:00:01:15" [EvShowError "Error"],
           [FpsBase (EvShowError "Error")]).
Proof.
  split.
  - destruct (proj1 (on_fps_selected_spec "25" true
                       (mkApp true true true 45 60 (30 # 1) "30" "/timecode"
                              (100 # 1) "00:00:01:15" [])) (25 # 1))
      as (a' & log & E & R & _ & _ & S & C & _).
    + cbn. right. right. left. reflexivity.
    + exists a', log. auto.
  - apply (proj2 (on_fps_selected_spec "60" true
                    (mkApp true true true 45 60 (30 # 1) "30" "/timecode"
                           (100 # 1) "00:00:01:15" []))).
    intros v Hin. cbn in Hin.
    repeat (destruct Hin as [Hin|Hin]; [discriminate Hin|]). exact Hin.
Defined.

(** ** Runs of the tick loop *)

Lemma Qle_bool_false_inv (x : Q) : Qle_bool x 0 = false -> (0 < x)%Q.
Proof.
  intros H. apply Qnot_le_lt. intros Hle.
  apply Qle_bool_iff in Hle. congruence.
Qed.

(** The two ways through the body of the loop. *)
Lemma timecode_loop_iter_cases (e : tick_env) (st : loop_state) :
  (tick_guard e = true
   /\ timecode_loop_iter e st =
      Ok (mkLoop (loop_current_frame st) (env_perf_counter e) (loop_effects st)
                 (slept st ++ [1 # 20])%list, false))
  \/ (tick_guard e = false
      /\ exists tc,
           frames_to_tc_string (loop_current_frame st) (env_fps e) = Ok tc
           /\ (0 < frame_duration_of e)%Q
           /\ timecode_loop_iter e st =
              Ok (mkLoop (loop_current_frame st + 1)
                    (last_time st + frame_duration_of e)%Q
                    (loop_effects st
                     ++ EvDisplay tc
                        :: send_osc_effects (env_osc_client e) (env_is_running e)
                             (env_osc_address_var e) (env_send_ok e) tc)%list
                    (if Qle_bool (last_time st + frame_duration_of e
                                  - env_perf_counter e) 0
                     then slept st
                     else (slept st
                           ++ [last_time st + frame_duration_of e
                               - env_perf_counter e])%list)%Q,
                  true)).
Proof.
  unfold timecode_loop_iter, tick_guard, frame_duration_of.
  rewrite truediv_100. cbn [Py.bind].
  destruct (Qle_bool (env_speed_var e / (100 # 1)) 0) eqn:G1;
    [left; split; reflexivity|].
  destruct (Qle_bool (env_fps e) 0) eqn:G2; [left; split; reflexivity|].
  right. split; [reflexivity|]. cbn [orb].
  apply Qle_bool_false_inv in G1. apply Qle_bool_false_inv in G2.
  assert (P : (0 < env_fps e * (env_speed_var e / (100 # 1)))%Q)
    by (apply Qmult_lt_0_compat; assumption).
  destruct (frames_to_tc_string_total (loop_current_frame st) (env_fps e)) as [tc Htc].
  exists tc. split; [exact Htc|]. split.
  - apply Qlt_shift_div_l; [exact P|]. rewrite Qmult_0_l. reflexivity.
  - unfold Py.truediv. rewrite (Qeq_bool_false _ P). cbn [Py.bind].
    unfold Py.round_int. rewrite Htc. reflexivity.
Qed.

(** In the model, where the product of a positive rate and a positive speed
    is positive, every pass returns; the counter and the effects along a
    run. *)
Lemma timecode_loop_run_progress (envs : list tick_env) (st : loop_state) :
  exists st' new,
    timecode_loop_run envs st = Ok st'
    /\ loop_current_frame st <= loop_current_frame st'
       <= loop_current_frame st + Z.of_nat (List.length envs)
    /\ loop_effects st' = (loop_effects st ++ new)%list
    /\ Z.of_nat (List.length (displays new))
       = loop_current_frame st' - loop_current_frame st.
Proof.
  revert st. induction envs as [|e envs IH]; intros st.
  - exists st, []. cbn. rewrite app_nil_r. repeat split; lia.
  - cbn [timecode_loop_run].
    destruct (env_is_running e) eqn:R1.
    2:{ exists st, []. rewrite app_nil_r. cbn [List.length displays].
        repeat split; lia. }
    destruct (timecode_loop_iter_cases e st) as [[G E]|[G (tc & Htc & Hfd & E)]];
      rewrite ?R1 in E; rewrite E; cbn [Py.bind andb].
    + destruct (IH (mkLoop (loop_current_frame st) (env_perf_counter e)
                           (loop_effects st) (slept st ++ [1 # 20])%list))
        as (st' & new & R & B & Ev & D).
      cbn [loop_current_frame loop_effects] in *.
      exists st', new. cbn [List.length].
      repeat split; try assumption; lia.
    + set (evs := EvDisplay tc
                  :: send_osc_effects (env_osc_client e) true
                       (env_osc_address_var e) (env_send_ok e) tc) in *.
      assert (Dev : displays evs = [tc])
        by (unfold evs; cbn [displays]; rewrite displays_send_osc_effects;
            reflexivity).
      destruct (negb (env_is_running_after e)).
      * eexists. exists evs. split; [reflexivity|].
        cbn [loop_current_frame loop_effects]. rewrite Dev.
        cbn [List.length]. repeat split; try reflexivity; lia.
      * match goal with
        | |- context [timecode_loop_run envs ?s] =>
            destruct (IH s) as (st' & new & R & B & Ev & D)
        end.
        cbn [loop_current_frame loop_effects] in *.
        exists st', (evs ++ new)%list.
        split; [exact R|]. split; [cbn [List.length]; lia|].
        split; [rewrite Ev, <- app_assoc; reflexivity|].
        rewrite displays_app, Dev, length_app. cbn [List.length]. lia.
Qed.

(** X12: over any run of the loop that returns, whatever the snapshots, the
    frame counter does not decrease and advances by at most one per
    snapshot, the effects already produced stay in place, and the number of
    timecodes shown since the start equals the advance of the counter. *)
Theorem timecode_loop_run_bounds (envs : list tick_env) (st st' : loop_state) :
  timecode_loop_run envs st = Ok st' ->
  loop_current_frame st <= loop_current_frame st'
    <= loop_current_frame st + Z.of_nat (List.length envs)
  /\ exists new,
       loop_effects st' = (loop_effects st ++ new)%list
       /\ Z.of_nat (List.length (displays new))
          = loop_current_frame st' - loop_current_frame st.
Proof.
  intros E.
  destruct (timecode_loop_run_progress envs st) as (st'' & new & R & B & Ev & D).
  rewrite E in R. injection R as <-.
  split; [exact B|]. exists new. split; assumption.
Qed.

Lemma timecode_loop_run_bounds_witness :
  exists st',
    timecode_loop_run
      [mkEnv true (100 # 1) (30 # 1) true "/timecode" true (5 # 1) true;
       mkEnv true 0 (30 # 1) true "/timecode" true (6 # 1) true;
       mkEnv true (50 # 1) (30 # 1) false "/timecode" true (7 # 1) false;
       mkEnv true (50 # 1) (30 # 1) true "/timecode" true (8 # 1) true]
      (mkLoop 45 (1 # 1) [EvStatus StPaused] []) = Ok st'
    /\ 45 <= loop_current_frame st' <= 45 + 4
    /\ exists new,
         loop_effects st' = ([EvStatus StPaused] ++ new)%list
         /\ Z.of_nat (List.length (displays new)) = loop_current_frame st' - 45.
Proof.
  assert (E : exists st',
            timecode_loop_run
              [mkEnv true (100 # 1) (30 # 1) true "/timecode" true (5 # 1) true;
               mkEnv true 0 (30 # 1) true "/timecode" true (6 # 1) true;
               mkEnv true (50 # 1) (30 # 1) false "/timecode" true (7 # 1) false;
               mkEnv true (50 # 1) (30 # 1) true "/timecode" true (8 # 1) true]
              (mkLoop 45 (1 # 1) [EvStatus StPaused] []) = Ok st')
    by (eexists; vm_compute; reflexivity).
  destruct E as (st' & E).
  exists st'. split; [exact E|].
  apply (timecode_loop_run_bounds _ _ st' E).
Defined.

Lemma timecode_loop_run_displays (envs : list tick_env) (st : loop_state) (fps : Q) :
  forallb stays_running envs = true ->
  (forall e, In e envs -> env_fps e = fps) ->
  exists st',
    timecode_loop_run envs st = Ok st'
    /\ loop_current_frame st'
       = loop_current_frame st + Z.of_nat (List.length (ticking envs))
    /\ map (@Ok string) (displays (loop_effects st'))
       = (map (@Ok string) (displays (loop_effects st))
          ++ map (fun i => frames_to_tc_string (loop_current_frame st + Z.of_nat i) fps)
                 (seq 0 (List.length (ticking envs))))%list.
Proof.
  revert st. induction envs as [|e envs IH]; intros st Hrun Hfps.
  - exists st. cbn. rewrite app_nil_r. repeat split; lia.
  - cbn [forallb] in Hrun. apply andb_true_iff in Hrun. destruct Hrun as [He Hrun].
    unfold stays_running in He. apply andb_true_iff in He. destruct He as [R1 R2].
    assert (Hfps' : forall e', In e' envs -> env_fps e' = fps)
      by (intros e' Hin; apply Hfps; now right).
    assert (Fe : env_fps e = fps) by (apply Hfps; now left).
    cbn [timecode_loop_run]. rewrite R1, R2.
    unfold ticking. cbn [filter]. fold (ticking envs).
    destruct (timecode_loop_iter_cases e st) as [[G E]|[G (tc & Htc & Hfd & E)]];
      rewrite E, G; cbn [Py.bind andb negb].
    + match goal with
      | |- context [timecode_loop_run envs ?s] =>
          destruct (IH s Hrun Hfps') as (st' & R & Fr & D)
      end.
      cbn [loop_current_frame loop_effects] in *. exists st'. auto.
    + match goal with
      | |- context [timecode_loop_run envs ?s] =>
          destruct (IH s Hrun Hfps') as (st' & R & Fr & D)
      end.
      cbn [loop_current_frame loop_effects] in *.
      exists st'. split; [exact R|]. split; [cbn [List.length]; lia|].
      rewrite D. rewrite displays_app. cbn [displays].
      rewrite displays_send_osc_effects, !map_app. cbn [map List.length seq].
      rewrite <- app_assoc. cbn [List.app]. f_equal.
      rewrite Z.add_0_r, <- Fe, Htc. f_equal.
      rewrite <- seq_shift, map_map. apply map_ext. intros i.
      f_equal. lia.
Qed.

(** X13: while the running flag stays up and the rate is the same in every
    snapshot, the frame counter at the end is the initial frame plus the
    number of snapshots that were not paused, and the timecodes shown are
    those of the consecutive frames from the initial one, one per such
    snapshot, in order: no frame is skipped or shown twice. *)
Theorem timecode_loop_displays (envs : list tick_env) (initial_frame : Z)
    (t0 fps : Q) :
  forallb stays_running envs = true ->
  (forall e, In e envs -> env_fps e = fps) ->
  exists st',
    timecode_loop initial_frame t0 envs = Ok st'
    /\ loop_current_frame st' = initial_frame + Z.of_nat (List.length (ticking envs))
    /\ map (@Ok string) (displays (loop_effects st'))
       = map (fun i => frames_to_tc_string (initial_frame + Z.of_nat i) fps)
             (seq 0 (List.length (ticking envs))).
Proof.
  intros Hrun Hfps. unfold timecode_loop.
  destruct (timecode_loop_run_displays envs (mkLoop initial_frame t0 [] []) fps
              Hrun Hfps) as (st' & R & Fr & D).
  exists st'. auto.
Qed.

Lemma timecode_loop_displays_witness :
  exists st',
    timecode_loop 29 (0 # 1)
      [mkEnv true (100 # 1) (30 # 1) true "/timecode" true (1 # 100) true;
       mkEnv true 0 (30 # 1) true "/timecode" true (1 # 10) true;
       mkEnv true (200 # 1) (30 # 1) true "/timecode" true (2 # 10) true] = Ok st'
    /\ loop_current_frame st' = 31
    /\ map (@Ok string) (displays (loop_effects st'))
       = [Ok "00:00:00:29"; Ok "00:00:01:00"].
Proof.
  apply (timecode_loop_displays
           [mkEnv true (100 # 1) (30 # 1) true "/timecode" true (1 # 100) true;
            mkEnv true 0 (30 # 1) true "/timecode" true (1 # 10) true;
            mkEnv true (200 # 1) (30 # 1) true "/timecode" true (2 # 10) true]
           29 (0 # 1) (30 # 1)).
  - reflexivity.
  - intros e Hin. cbn in Hin.
    repeat (destruct Hin as [Hin|Hin]; [subst e; reflexivity|]). contradiction.
Defined.






Lemma timecode_loop_run_sleeps (envs : list tick_env) (st st' : loop_state) :
  Forall (fun d => (0 < d)%Q) (slept st) ->
  timecode_loop_run envs st = Ok st' ->
  Forall (fun d => (0 < d)%Q) (slept st').
Proof.
  revert st. induction envs as [|e envs IH]; intros st Hs E.
  - cbn in E. injection E as <-. exact Hs.
  - cbn [timecode_loop_run] in E.
    destruct (env_is_running e); [|injection E as <-; exact Hs].
    destruct (timecode_loop_iter_cases e st) as [[G Ei]|[G (tc & Htc & Hfd & Ei)]];
      rewrite Ei in E; cbn [Py.bind andb] in E.
    + apply IH in E; [exact E|]. cbn [slept].
      apply Forall_app. split; [exact Hs|]. repeat constructor.
    + match type of E with
      | context [mkLoop _ _ _ ?sl] =>
          assert (Hsl : Forall (fun d => (0 < d)%Q) sl)
      end.
      { destruct (Qle_bool _ 0) eqn:C; [exact Hs|].
        apply Forall_app. split; [exact Hs|].
        constructor; [apply Qle_bool_false_inv, C|constructor]. }
      destruct (negb (env_is_running_after e)).
      * injection E as <-. exact Hsl.
      * apply IH in E; [exact E|exact Hsl].
Qed.

(** X15: every duration the loop sleeps is positive: when a tick is already
    late the loop goes on without sleeping at all, and the only other sleep
    is the fixed one of the pause branch. *)
Theorem timecode_loop_sleeps_positive (envs : list tick_env) (initial_frame : Z)
    (t0 : Q) (st' : loop_state) :
  timecode_loop initial_frame t0 envs = Ok st' ->
  Forall (fun d => (0 < d)%Q) (slept st').
Proof.
  unfold timecode_loop. apply timecode_loop_run_sleeps. constructor.
Qed.

Lemma timecode_loop_sleeps_positive_witness :
  exists st',
    timecode_loop 0 (1 # 1)
      [mkEnv true (100 # 1) (30 # 1) true "/timecode" true (5 # 1) true;
       mkEnv true 0 (30 # 1) true "/timecode" true (6 # 1) true;
       mkEnv true (100 # 1) (30 # 1) true "/timecode" true (6 # 1) true] = Ok st'
    /\ List.length (slept st') = 2%nat
    /\ Forall (fun d => (0 < d)%Q) (slept st').
Proof.
  assert (E : exists st',
            timecode_loop 0 (1 # 1)
              [mkEnv true (100 # 1) (30 # 1) true "/timecode" true (5 # 1) true;
               mkEnv true 0 (30 # 1) true "/timecode" true (6 # 1) true;
               mkEnv true (100 # 1) (30 # 1) true "/timecode" true (6 # 1) true]
            = Ok st' /\ List.length (slept st') = 2%nat)
    by (eexists; vm_compute; split; reflexivity).
  destruct E as (st' & E & L).
  exists st'. split; [exact E|]. split; [exact L|].
  apply (timecode_loop_sleeps_positive _ _ _ st' E).
Defined.

(** ** Where OSC messages go *)

Lemma send_osc_effects_ok (client running : bool) (address : string)
    (send_ok : bool) (tc : string) :
  forallb osc_event_ok (send_osc_effects client running address send_ok tc) = true.
Proof.
  unfold send_osc_effects. rewrite address_invalid_startswith.
  destruct client, running, (startswith_slash address) eqn:Hs, send_ok;
    cbn [negb forallb osc_event_ok andb]; rewrite ?Hs; reflexivity.
Qed.

Lemma timecode_loop_run_osc (envs : list tick_env) (st st' : loop_state) :
  forallb osc_event_ok (loop_effects st) = true ->
  timecode_loop_run envs st = Ok st' ->
  forallb osc_event_ok (loop_effects st') = true.
Proof.
  revert st. induction envs as [|e envs IH]; intros st Hs E.
  - cbn in E. injection E as <-. exact Hs.
  - cbn [timecode_loop_run] in E.
    destruct (env_is_running e); [|injection E as <-; exact Hs].
    destruct (timecode_loop_iter_cases e st) as [[G Ei]|[G (tc & Htc & Hfd & Ei)]];
      rewrite Ei in E; cbn [Py.bind andb] in E.
    + apply IH in E; [exact E|exact Hs].
    + match type of E with
      | context [mkLoop _ _ ?evs _] =>
          assert (Hev : forallb osc_event_ok evs = true)
      end.
      { rewrite forallb_app, Hs. cbn [forallb osc_event_ok andb].
        apply send_osc_effects_ok. }
      destruct (negb (env_is_running_after e)).
      * injection E as <-. exact Hev.
      * apply IH in E; [exact E|exact Hev].
Qed.

(** X16: no OSC message ever goes to an address that does not start with a
    slash: the effects of a run of the loop contain none, and a reset or a
    start or stop adds none to effects that contain none. *)
Theorem osc_messages_well_addressed :
  (forall envs initial_frame t0 st',
     timecode_loop initial_frame t0 envs = Ok st' ->
     forallb osc_event_ok (loop_effects st') = true)
  /\ (forall send_ok a a',
        forallb osc_event_ok (effects a) = true ->
        reset_timecode send_ok a = Ok a' ->
        forallb osc_event_ok (effects a') = true)
  /\ (forall a,
        forallb osc_event_ok (effects a) = true ->
        forallb osc_event_ok (effects (toggle_play_pause a)) = true).
Proof.
  assert (T : forall a,
            forallb osc_event_ok (effects a) = true ->
            forallb osc_event_ok (effects (toggle_play_pause a)) = true).
  { intros a Ha. unfold toggle_play_pause, update_speed_label.
    destruct (is_running a), (osc_client a), (address_invalid (osc_address_var a));
      cbn [negb]; app_simpl; destruct (speed_is_zero (speed_var a));
      app_simpl; rewrite ?forallb_app, Ha; reflexivity. }
  split; [|split; [|exact T]].
  - intros envs initial_frame t0 st' E.
    apply (timecode_loop_run_osc envs (mkLoop initial_frame t0 [] []) st');
      [reflexivity|exact E].
  - intros send_ok a a' Ha E.
    destruct (reset_timecode_explicit send_ok a) as (tc & _ & E').
    cbv zeta in E'. rewrite E in E'. injection E' as ->.
    cbn [effects]. rewrite !forallb_app.
    assert (H0 : forallb osc_event_ok
                   (effects (if is_running a then toggle_play_pause a else a)) = true)
      by (destruct (is_running a); [apply T, Ha|exact Ha]).
    rewrite H0.
    destruct (tc_string_to_frames (offset_var a) (fps a)), (osc_client a);
      cbn [forallb osc_event_ok andb List.app];
      rewrite ?forallb_app, ?send_osc_effects_ok; reflexivity.
Qed.

Lemma osc_messages_well_addressed_witness :
  (exists st',
     timecode_loop 0 (0 # 1)
       [mkEnv true (100 # 1) (30 # 1) true "/timecode" true (1 # 1) true;
        mkEnv true (100 # 1) (30 # 1) true "timecode" true (2 # 1) true] = Ok st'
     /\ forallb osc_event_ok (loop_effects st') = true
     /\ List.length (loop_effects st') = 4%nat)
  /\ (exists a',
        reset_timecode true
          (mkApp true true true 0 45 (30 # 1) "30" "timecode" (100 # 1)
                 "00:00:00:00" []) = Ok a'
        /\ forallb osc_event_ok (effects a') = true).
Proof.
  split.
  - assert (E : exists st',
              timecode_loop 0 (0 # 1)
                [mkEnv true (100 # 1) (30 # 1) true "/timecode" true (1 # 1) true;
                 mkEnv true (100 # 1) (30 # 1) true "timecode" true (2 # 1) true]
              = Ok st' /\ List.length (loop_effects st') = 4%nat)
      by (eexists; vm_compute; split; reflexivity).
    destruct E as (st' & E & L).
    exists st'. split; [exact E|]. split; [|exact L].
    apply (proj1 osc_messages_well_addressed _ _ _ st' E).
  - assert (E : exists a',
              reset_timecode true
                (mkApp true true true 0 45 (30 # 1) "30" "timecode" (100 # 1)
                       "00:00:00:00" []) = Ok a')
      by (eexists; vm_compute; reflexivity).
    destruct E as (a' & E).
    exists a'. split; [exact E|].
    apply (proj1 (proj2 osc_messages_well_addressed) true
             (mkApp true true true 0 45 (30 # 1) "30" "timecode" (100 # 1)
                    "00:00:00:00" []) a' eq_refl E).
Defined.

(** ** Play after reset, and resuming from a pause *)

Lemma toggle_play_pause_current_frame (a : app) :
  current_frame (toggle_play_pause a) = current_frame a.
Proof.
  unfold toggle_play_pause, update_speed_label.
  destruct (is_running a), (osc_client a), (address_invalid (osc_address_var a));
    cbn [negb]; app_simpl; try destruct (speed_is_zero (speed_var a));
    reflexivity.
Qed.

(** X17: the thread that Play starts is given the frame counter of the
    object, which start and stop never change; so after a reset, the first
    tick of the loop at the same rate shows again the timecode that the reset
    showed, and leaves the counter one frame after the offset. *)
Theorem play_after_reset (send_ok : bool) (a a1 : app) (t0 : Q) (e : tick_env) :
  reset_timecode send_ok a = Ok a1 ->
  env_is_running e = true -> env_fps e = fps a -> tick_guard e = false ->
  exists tc st',
    displays (new_effects a a1) = [tc]
    /\ timecode_loop (current_frame (toggle_play_pause a1)) t0 [e] = Ok st'
    /\ displays (loop_effects st') = [tc]
    /\ loop_current_frame st' = start_frame a1 + 1.
Proof.
  intros E R Fe G.
  destruct (reset_timecode_explicit send_ok a) as (tc & Htc & E').
  cbv zeta in E'. rewrite E in E'. injection E' as ->.
  exists tc.
  assert (Heff : exists pre,
            effects (if is_running a then toggle_play_pause a else a)
            = (effects a ++ pre)%list /\ displays pre = []).
  { destruct (is_running a) eqn:Ra.
    - exists [EvButton "Play"; EvStatus StPaused].
      unfold toggle_play_pause. rewrite Ra. app_simpl.
      rewrite <- app_assoc. auto.
    - exists []. rewrite app_nil_r. auto. }
  destruct Heff as (pre & Hpre & Dpre).
  rewrite toggle_play_pause_current_frame. cbn [current_frame start_frame].
  unfold timecode_loop. cbn [timecode_loop_run]. rewrite R.
  destruct (timecode_loop_iter_cases e
              (mkLoop (match tc_string_to_frames (offset_var a) (fps a) with
                       | Some n => n
                       | None => 0
                       end) t0 [] []))
    as [[G' _]|[_ (tc' & Htc' & _ & Ei)]]; [congruence|].
  cbn [loop_current_frame] in Htc'. rewrite Fe, Htc in Htc'. injection Htc' as <-.
  rewrite Ei. cbn [Py.bind andb].
  eexists. split; [|split; [|split]].
  - unfold new_effects. cbn [effects]. rewrite Hpre, <- app_assoc, skipn_app_length.
    rewrite displays_app, Dpre.
    destruct (tc_string_to_frames (offset_var a) (fps a)), (osc_client a);
      cbn [displays List.app];
      rewrite ?displays_app, ?displays_send_osc_effects; reflexivity.
  - destruct (negb (env_is_running_after e)); reflexivity.
  - cbn [loop_effects List.app displays].
    rewrite displays_send_osc_effects. reflexivity.
  - reflexivity.
Qed.

Lemma play_after_reset_witness :
  exists a1 tc st',
    reset_timecode true
      (mkApp true false false 0 0 (25 # 1) "25" "/timecode" (100 # 1)
             "00:00:01:15" []) = Ok a1
    /\ displays
         (new_effects
            (mkApp true false false 0 0 (25 # 1) "25" "/timecode" (100 # 1)
                   "00:00:01:15" []) a1) = [tc]
    /\ timecode_loop (current_frame (toggle_play_pause a1)) (0 # 1)
         [mkEnv true (100 # 1) (25 # 1) true "/timecode" true (1 # 1) true] = Ok st'
    /\ displays (loop_effects st') = [tc]
    /\ loop_current_frame st' = start_frame a1 + 1.
Proof.
  assert (E : exists a1,
            reset_timecode true
              (mkApp true false false 0 0 (25 # 1) "25" "/timecode" (100 # 1)
                     "00:00:01:15" []) = Ok a1)
    by (eexists; vm_compute; reflexivity).
  destruct E as (a1 & E).
  destruct (play_after_reset true
              (mkApp true false false 0 0 (25 # 1) "25" "/timecode" (100 # 1)
                     "00:00:01:15" []) a1 (0 # 1)
              (mkEnv true (100 # 1) (25 # 1) true "/timecode" true (1 # 1) true)
              E eq_refl eq_refl eq_refl)
    as (tc & st' & H1 & H2 & H3 & H4).
  exists a1, tc, st'. auto.
Defined.

(** X18: a pause leaves no time owed.  When a paused pass that read the
    clock at [p] is followed by a tick that reads it at [c >= p], the tick is
    scheduled one frame duration after [p], however long the pause lasted
    before, and the loop sleeps the pause interval and then at most one
    frame duration. *)
Theorem resume_after_pause (e1 e2 : tick_env) (st : loop_state) :
  stays_running e1 = true -> stays_running e2 = true ->
  tick_guard e1 = true -> tick_guard e2 = false ->
  (env_perf_counter e1 <= env_perf_counter e2)%Q ->
  exists st' extra,
    timecode_loop_run [e1; e2] st = Ok st'
    /\ loop_current_frame st' = loop_current_frame st + 1
    /\ last_time st' = (env_perf_counter e1 + frame_duration_of e2)%Q
    /\ slept st' = (slept st ++ (1 # 20) :: extra)%list
    /\ Forall (fun d => (0 < d <= frame_duration_of e2)%Q) extra.
Proof.
  intros R1 R2 G1 G2 Hclock.
  unfold stays_running in R1, R2.
  apply andb_true_iff in R1. destruct R1 as [R1 R1'].
  apply andb_true_iff in R2. destruct R2 as [R2 R2'].
  cbn [timecode_loop_run]. rewrite R1.
  destruct (timecode_loop_iter_cases e1 st) as [[_ E1]|[G1' _]]; [|congruence].
  rewrite E1. cbn [Py.bind andb]. rewrite R2.
  match goal with
  | |- context [timecode_loop_iter e2 ?s] =>
      destruct (timecode_loop_iter_cases e2 s) as [[G2' _]|[_ (tc & _ & Hfd & E2)]];
        [congruence|]
  end.
  rewrite E2. cbn [Py.bind andb]. rewrite R2'. cbn [negb].
  cbn [loop_current_frame last_time slept].
  destruct (Qle_bool (env_perf_counter e1 + frame_duration_of e2
                      - env_perf_counter e2) 0) eqn:C.
  - eexists. exists []. split; [reflexivity|].
    cbn [loop_current_frame last_time slept]. repeat split. constructor.
  - eexists. eexists. split; [reflexivity|].
    cbn [loop_current_frame last_time slept].
    split; [reflexivity|]. split; [reflexivity|].
    split; [rewrite <- app_assoc; reflexivity|].
    constructor; [|constructor]. split.
    + apply Qle_bool_false_inv, C.
    + apply Qle_minus_iff.
      setoid_replace (frame_duration_of e2
                      + - (env_perf_counter e1 + frame_duration_of e2
                           - env_perf_counter e2))%Q
        with (env_perf_counter e2 + - env_perf_counter e1)%Q by ring.
      apply Qle_minus_iff in Hclock. exact Hclock.
Qed.

Lemma resume_after_pause_witness :
  exists st' extra,
    timecode_loop_run
      [mkEnv true 0 (30 # 1) true "/timecode" true (100 # 1) true;
       mkEnv true (100 # 1) (30 # 1) true "/timecode" true (10001 # 100) true]
      (mkLoop 45 (1 # 1) [] []) = Ok st'
    /\ loop_current_frame st' = 45 + 1
    /\ slept st' = ([] ++ (1 # 20) :: extra)%list
    /\ Forall (fun d => (0 < d <= 1 / ((30 # 1) * ((100 # 1) / (100 # 1))))%Q) extra.
Proof.
  destruct (resume_after_pause
              (mkEnv true 0 (30 # 1) true "/timecode" true (100 # 1) true)
              (mkEnv true (100 # 1) (30 # 1) true "/timecode" true (10001 # 100) true)
              (mkLoop 45 (1 # 1) [] []))
    as (st' & extra & H1 & H2 & _ & H3 & H4).
  - reflexivity.
  - reflexivity.
  - reflexivity.
  - reflexivity.
  - vm_compute. discriminate.
  - exists st', extra. auto.
Defined.

(** ** A frames field of three digits *)

(** C10 (counterexample): the frames field is not bounded by two digits at
    every rate.  At the rate 120.0 frame 119 is written "00:00:00:119", so
    no reading of that output as four digit-only fields has a frames field
    of at most two digits. *)
Lemma frames_field_exceeds_two_digits :
  (0 <= 119 /\ 1 <= Py.round (120 # 1))
  /\ frames_to_tc_string 119 (120 # 1) = Ok "00:00:00:119"
  /\ ~ (forall frames fps,
          0 <= frames -> 1 <= Py.round fps ->
          exists hh mm ss ff,
            frames_to_tc_string frames fps
            = Ok (hh ++ ":" ++ mm ++ ":" ++ ss ++ ":" ++ ff)
            /\ all_digits hh && all_digits mm && all_digits ss && all_digits ff = true
            /\ (String.length ff <= 2)%nat).
Proof.
  split; [split; [lia|vm_compute; discriminate]|].
  split; [reflexivity|].
  intros H.
  destruct (H 119 (120 # 1)) as (hh & mm & ss & ff & E & D & L);
    [lia|vm_compute; discriminate|].
  assert (V : frames_to_tc_string 119 (120 # 1) = Ok "00:00:00:119") by reflexivity.
  rewrite V in E. injection E as E.
  apply andb_true_iff in D. destruct D as [D Dff].
  apply andb_true_iff in D. destruct D as [D Dss].
  apply andb_true_iff in D. destruct D as [Dhh Dmm].
  cbn [append] in E.
  change ("00" ++ String ":" "00:00:119" = hh ++ String ":" (mm ++ String ":" (ss ++ String ":" ff))) in E.
  apply digits_colon_split in E; [|reflexivity|exact Dhh]. destruct E as [_ E].
  change ("00" ++ String ":" "00:119" = mm ++ String ":" (ss ++ String ":" ff)) in E.
  apply digits_colon_split in E; [|reflexivity|exact Dmm]. destruct E as [_ E].
  change ("00" ++ String ":" "119" = ss ++ String ":" ff) in E.
  apply digits_colon_split in E; [|reflexivity|exact Dss]. destruct E as [_ E].
  subst ff. cbn in L. lia.
Qed.
